(** * whisper-openapi: the HTTP dispatch layer of [webservice.py]

    A shallow embedding of the three endpoints of [webservice.py]
    ([asr], [transcriptions], [detect_language]), of the module-level
    initialisation that builds the engine, and of the parameter declarations
    from which the interactive documentation is generated.

    Python [str] values are represented by their UTF-8 encoding, a
    [string] of bytes; a [dict] is a [gmap]; an exception is a value of
    [exn] carried by [Raise].  The engine object, the audio loader, the
    configuration and the Whisper language table live outside
    [webservice.py]: the handlers are generic in them. *)

From Stdlib Require Import Ascii QArith.
From stdpp Require Import gmap strings list fin_maps sorting.

(** ** Strings *)

Module Str.

(** The double-quote character, used inside the Content-Disposition
    header. *)
Definition dquote : string := String "034"%char EmptyString.

(** [chr] of a single code below 256, as a one-character string. *)
Definition of_ascii (c : ascii) : string := String c EmptyString.

End Str.

(** ** [urllib.parse.quote]

    [quote(string)] with the default [safe='/']: the string is encoded to
    UTF-8 and every byte outside the unreserved set (letters, digits,
    [_ . - ~]) and outside [safe] is replaced by [%XX], upper-case hex. *)

Module Urllib.

Definition is_upper (n : nat) : bool := (65 <=? n)%nat && (n <=? 90)%nat.
Definition is_lower (n : nat) : bool := (97 <=? n)%nat && (n <=? 122)%nat.
Definition is_digit (n : nat) : bool := (48 <=? n)%nat && (n <=? 57)%nat.

(** [_ALWAYS_SAFE]: [A-Z a-z 0-9 _ . - ~]. *)
Definition always_safe (c : ascii) : bool :=
  let n := nat_of_ascii c in
  is_upper n || is_lower n || is_digit n
  || (n =? 95)%nat || (n =? 46)%nat || (n =? 45)%nat || (n =? 126)%nat.

(** The default value of the [safe] argument: ['/']. *)
Definition default_safe (c : ascii) : bool := (nat_of_ascii c =? 47)%nat.

Definition hex_digit (n : nat) : ascii :=
  if (n <? 10)%nat then ascii_of_nat (48 + n) else ascii_of_nat (55 + n).

(** ['%{:02X}'.format(b)] *)
Definition percent (c : ascii) : string :=
  let n := nat_of_ascii c in
  String "%"%char
    (String (hex_digit (n / 16)) (String (hex_digit (n mod 16)) EmptyString)).

Definition quote_byte (c : ascii) : string :=
  if always_safe c || default_safe c then Str.of_ascii c else percent c.

Fixpoint quote (s : string) : string :=
  match s with
  | EmptyString => EmptyString
  | String c s' => quote_byte c +:+ quote s'
  end.

End Urllib.

(** ** Character sets *)

Fixpoint all_chars (f : ascii → bool) (s : string) : bool :=
  match s with
  | EmptyString => true
  | String c s' => f c && all_chars f s'
  end.

(** [s.encode("latin-1")] succeeds: every code point of the string is below
    256.  In the UTF-8 encoding of a string those code points are the bytes
    below 0x80 and the two-byte sequences led by 0xC2 or 0xC3, so that the
    string qualifies exactly when none of its bytes is 0xC4 or above. *)
Definition latin1 (s : string) : bool :=
  all_chars (λ c, (nat_of_ascii c <? 196)%nat) s.

(** ** Exceptions and effects *)

(** Modelled from the spec: the error classes of the engine and of the audio
    loader are declared outside [webservice.py]; the first six names below
    are the taxonomy of the design document (section 7).  [KeyError] is
    Python's own, raised by a failed [dict] subscript, [NameError] by
    reading an unbound global, and [UnicodeEncodeError] by encoding a [str]
    in a character set that lacks one of its characters. *)
Inductive exn : Type :=
| InvalidAudioError
| InvalidOptionError
| UnsupportedOptionError
| EngineTimeoutError
| EngineConstructionError
| InvalidSegmentError
| KeyError (key : string)
| NameError (name : string)
| UnicodeEncodeError.

Inductive result (A : Type) : Type :=
| Ok (a : A)
| Raise (e : exn).
Arguments Ok {A} a.
Arguments Raise {A} e.

Definition is_ok {A} (r : result A) : bool :=
  match r with Ok _ => true | Raise _ => false end.

(** Code that reads and writes a state [S] and may raise: the state reached
    when the exception is raised is kept, as in Python. *)
Definition M (S A : Type) : Type := S → result A * S.

Definition ret {S A} (a : A) : M S A := λ s, (Ok a, s).

Definition raise {S A} (e : exn) : M S A := λ s, (Raise e, s).

Definition bind {S A B} (m : M S A) (k : A → M S B) : M S B :=
  λ s, match m s with
       | (Ok a, s') => k a s'
       | (Raise e, s') => (Raise e, s')
       end.

Definition get {S} : M S S := λ s, (Ok s, s).

Definition modify {S} (f : S → S) : M S unit := λ s, (Ok tt, f s).

Definition lift_result {S A} (r : result A) : M S A := λ s, (r, s).

Declare Scope py_scope.
Delimit Scope py_scope with py.
Notation "x <- m ;; k" := (bind m (λ x, k))
  (at level 100, m at next level, right associativity) : py_scope.
Notation "m ;;; k" := (bind m (λ _, k))
  (at level 100, right associativity) : py_scope.
Local Open Scope py_scope.

(** ** Data of the dispatch layer *)

(** What [load_audio] returns: the samples of a mono waveform.  The dispatch
    layer never looks inside. *)
Definition Waveform : Type := list Z.

(** What the engine's [transcribe] returns and [StreamingResponse] sends: a
    sequence of text chunks. *)
Definition Stream : Type := list string.

(** [UploadFile]: the name given by the client and the uploaded bytes.  A
    multipart file part always carries a file name. *)
Record UploadFile : Type := {
  filename : string;
  file : list Byte.byte
}.

(** The [dict] literal passed as seventh argument of [transcribe]. *)
Record DiarizeOptions : Type := {
  diarize : bool;
  min_speakers : option Z;
  max_speakers : option Z
}.

(** The eight positional arguments of [asr_model.transcribe], in order. *)
Record TranscribeArgs : Type := {
  t_audio : Waveform;
  t_task : option string;
  t_language : option string;
  t_initial_prompt : option string;
  t_vad_filter : option bool;
  t_word_timestamps : bool;
  t_options : DiarizeOptions;
  t_output : option string
}.

(** What an engine does that an observer cares about: loading the weights
    and running the model. *)
Inductive EngineEvent : Type := WeightsLoaded | Inference.

(** What can be observed of a run: which engine objects were built, which
    object each call was sent to and with which arguments, and what the
    engines did. *)
Inductive Event : Type :=
| ECreate (id : nat)
| ELoadModel (id : nat)
| ETranscribe (id : nat) (args : TranscribeArgs)
| ELanguageDetection (id : nat) (audio : Waveform)
| EEngine (e : EngineEvent).

(** What a method of an engine object does: its result or exception, and
    the engine events it gives rise to. *)
Definition Eff (A : Type) : Type := result A * list EngineEvent.

(** The interface every engine implements ([app.asr_models]); the methods
    may raise and may run the model. *)
Record ASRModel : Type := {
  load_model : Eff unit;
  transcribe : TranscribeArgs → Eff Stream;
  language_detection : Waveform → Eff (string * Q)
}.

(** [app.config.CONFIG], as far as [webservice.py] reads it. *)
Record Config : Type := {
  ASR_ENGINE : string;
  HF_TOKEN : string
}.

(** Everything [webservice.py] imports from the rest of the application and
    from the [whisper] package. *)
Record Environment : Type := {
  CONFIG : Config;
  create_asr_model : Config → result ASRModel;
  load_audio : list Byte.byte → bool → result Waveform;
  LANGUAGES : gmap string string
}.

(** ** Parameter declarations

    Each handler parameter is declared with [Query(...)], [Form(...)] or
    [File(...)]: a default, optionally an [enum] and a description for the
    documentation, and [include_in_schema], which decides whether the
    generated documentation lists the parameter. *)

Inductive PyVal : Type :=
| PRequired                (* [...]: no default, the parameter is required *)
| PNone
| PBool (b : bool)
| PInt (z : Z)
| PStr (s : string).

Inductive ParamSource : Type := InFile | InQuery | InForm.

Record Param : Type := {
  p_name : string;
  p_source : ParamSource;
  p_default : PyVal;
  p_enum : option (list string);
  p_description : option string;
  p_include_in_schema : bool
}.

(** The declared default of a parameter of type [Union[str, None]]. *)
Definition declared_str (p : Param) : option string :=
  match p_default p with PStr s => Some s | _ => None end.

(** The value a handler receives for a parameter: the one sent by the
    client, or else the declared default.  For a form field the framework
    takes a value sent empty for a field left out; a query parameter sent
    empty stays the empty string.  (For the fields that are not strings a
    request records the parsed value, so that an empty form value is a
    field left out there, too.) *)
Definition bind_str (p : Param) (sent : option string) : option string :=
  match sent with
  | Some s =>
      match p_source p, s with
      | InForm, EmptyString => declared_str p
      | _, _ => Some s
      end
  | None => declared_str p
  end.

Definition bind_bool (p : Param) (sent : option bool) : bool :=
  match sent with
  | Some b => b
  | None => match p_default p with PBool b => b | _ => false end
  end.

Definition bind_opt_bool (p : Param) (sent : option bool) : option bool :=
  match sent with
  | Some b => Some b
  | None => match p_default p with PBool b => Some b | _ => None end
  end.

Definition bind_int (p : Param) (sent : option Z) : option Z :=
  match sent with
  | Some z => Some z
  | None => match p_default p with PInt z => Some z | _ => None end
  end.

(** Whether the generated documentation lists a parameter: the framework
    consults [include_in_schema] for query parameters only; the fields of
    the request body, declared with [Form] or [File], are listed whatever
    the declaration says. *)
Definition listed (p : Param) : bool :=
  match p_source p with
  | InQuery => p_include_in_schema p
  | InFile | InForm => true
  end.

(** The parameters listed in the generated documentation of an endpoint. *)
Definition documented (ps : list Param) : list string :=
  p_name <$> filter (λ p, listed p = true) ps.

(** The order [sorted] puts strings in: byte-wise lexicographic. *)
Definition str_le (a b : string) : Prop := String.leb a b = true.

#[global] Instance str_le_dec : RelDecision str_le :=
  λ a b, decide (String.leb a b = true).

Section Declarations.

Variable env : Environment.

(** [LANGUAGE_CODES = sorted(tokenizer.LANGUAGES.keys())] *)
Definition LANGUAGE_CODES : list string :=
  merge_sort str_le (elements (dom (LANGUAGES env))).

Definition engine_is (name : string) : bool :=
  bool_decide (ASR_ENGINE (CONFIG env) = name).

(** The five declarations that [asr] and [transcriptions] share word for
    word, up to [Query] against [Form]. *)
Definition vad_filter_param (src : ParamSource) : Param :=
  {| p_name := "vad_filter"; p_source := src; p_default := PBool false;
     p_enum := None;
     p_description := Some "Enable the voice activity detection (VAD) to filter out parts of the audio without speech";
     p_include_in_schema := if engine_is "faster_whisper" then true else false |}.

Definition word_timestamps_param (src : ParamSource) : Param :=
  {| p_name := "word_timestamps"; p_source := src; p_default := PBool false;
     p_enum := None; p_description := Some "Word level timestamps";
     p_include_in_schema := if engine_is "faster_whisper" then true else false |}.

Definition diarize_param (src : ParamSource) : Param :=
  {| p_name := "diarize"; p_source := src; p_default := PBool false;
     p_enum := None; p_description := Some "Diarize the input";
     p_include_in_schema :=
       if engine_is "whisperx"
          && negb (bool_decide (HF_TOKEN (CONFIG env) = EmptyString))
       then true else false |}.

Definition min_speakers_param (src : ParamSource) : Param :=
  {| p_name := "min_speakers"; p_source := src; p_default := PNone;
     p_enum := None; p_description := Some "Min speakers in this file";
     p_include_in_schema := if engine_is "whisperx" then true else false |}.

Definition max_speakers_param (src : ParamSource) : Param :=
  {| p_name := "max_speakers"; p_source := src; p_default := PNone;
     p_enum := None; p_description := Some "Max speakers in this file";
     p_include_in_schema := if engine_is "whisperx" then true else false |}.

Definition encode_param (src : ParamSource) : Param :=
  {| p_name := "encode"; p_source := src; p_default := PBool true;
     p_enum := None;
     p_description := Some "Encode audio first through ffmpeg";
     p_include_in_schema := true |}.

Definition language_param (src : ParamSource) : Param :=
  {| p_name := "language"; p_source := src; p_default := PNone;
     p_enum := Some LANGUAGE_CODES; p_description := None;
     p_include_in_schema := true |}.

(** Parameters of [asr]. *)
Definition asr_audio_file : Param :=
  {| p_name := "audio_file"; p_source := InFile; p_default := PRequired;
     p_enum := None; p_description := None; p_include_in_schema := true |}.

Definition asr_task : Param :=
  {| p_name := "task"; p_source := InQuery; p_default := PStr "transcribe";
     p_enum := Some ["transcribe"; "translate"]; p_description := None;
     p_include_in_schema := true |}.

Definition asr_initial_prompt : Param :=
  {| p_name := "initial_prompt"; p_source := InQuery; p_default := PNone;
     p_enum := None; p_description := None; p_include_in_schema := true |}.

Definition asr_output : Param :=
  {| p_name := "output"; p_source := InQuery; p_default := PStr "txt";
     p_enum := Some ["txt"; "vtt"; "srt"; "tsv"; "json"];
     p_description := None; p_include_in_schema := true |}.

Definition asr_params : list Param :=
  [ asr_audio_file; encode_param InQuery; asr_task; language_param InQuery;
    asr_initial_prompt; vad_filter_param InQuery;
    word_timestamps_param InQuery; diarize_param InQuery;
    min_speakers_param InQuery; max_speakers_param InQuery; asr_output ].

(** Parameters of [transcriptions]. *)
Definition tr_file : Param :=
  {| p_name := "file"; p_source := InFile; p_default := PRequired;
     p_enum := None; p_description := None; p_include_in_schema := true |}.

Definition tr_prompt : Param :=
  {| p_name := "prompt"; p_source := InForm; p_default := PNone;
     p_enum := None; p_description := None; p_include_in_schema := true |}.

Definition tr_model : Param :=
  {| p_name := "model"; p_source := InForm; p_default := PStr "whisper-1";
     p_enum := None; p_description := None; p_include_in_schema := true |}.

Definition tr_response_format : Param :=
  {| p_name := "response_format"; p_source := InForm;
     p_default := PStr "json";
     p_enum := Some ["txt"; "vtt"; "srt"; "tsv"; "json"];
     p_description := None; p_include_in_schema := true |}.

Definition transcriptions_params : list Param :=
  [ tr_file; encode_param InForm; language_param InForm; tr_prompt;
    vad_filter_param InForm; word_timestamps_param InForm;
    diarize_param InForm; min_speakers_param InForm;
    max_speakers_param InForm; tr_model; tr_response_format ].

(** Parameters of [detect_language]. *)
Definition dl_encode : Param :=
  {| p_name := "encode"; p_source := InQuery; p_default := PBool true;
     p_enum := None;
     p_description := Some "Encode audio first through FFmpeg";
     p_include_in_schema := true |}.

Definition detect_language_params : list Param := [ asr_audio_file; dl_encode ].

End Declarations.

(** ** Requests and responses *)

(** A request to [POST /asr] as the client sends it: the upload, and each
    query parameter either present or left out. *)
Record AsrRequest : Type := {
  a_audio_file : UploadFile;
  a_encode : option bool;
  a_task : option string;
  a_language : option string;
  a_initial_prompt : option string;
  a_vad_filter : option bool;
  a_word_timestamps : option bool;
  a_diarize : option bool;
  a_min_speakers : option Z;
  a_max_speakers : option Z;
  a_output : option string
}.

(** A request to [POST /audio/transcriptions]: the upload and the form
    fields. *)
Record TranscriptionsRequest : Type := {
  f_file : UploadFile;
  f_encode : option bool;
  f_language : option string;
  f_prompt : option string;
  f_vad_filter : option bool;
  f_word_timestamps : option bool;
  f_diarize : option bool;
  f_min_speakers : option Z;
  f_max_speakers : option Z;
  f_model : option string;
  f_response_format : option string
}.

(** A request to [POST /detect-language]. *)
Record DetectLanguageRequest : Type := {
  d_audio_file : UploadFile;
  d_encode : option bool
}.

Inductive Request : Type :=
| GetIndex
| PostAsr (r : AsrRequest)
| PostTranscriptions (r : TranscriptionsRequest)
| PostDetectLanguage (r : DetectLanguageRequest).

Inductive JSON : Type :=
| JString (s : string)
| JNumber (q : Q).

(** What a handler returns: a [StreamingResponse], a [dict] that the
    framework serialises as a JSON object, or the target of a redirect. *)
Inductive Response : Type :=
| StreamingResponse (content : Stream) (media_type : string)
                    (headers : gmap string string)
| JSONObject (body : gmap string JSON)
| Redirect (url : string).

(** [str(x)] inside an f-string, for a value of type [Union[str, None]]. *)
Definition py_str (o : option string) : string :=
  match o with Some s => s | None => "None" end.

(** ** The module and its handlers *)

(** The state of the running process: the module global [asr_model] (a
    reference to an engine object, unbound before the module is imported),
    the number of engine objects built so far, and what happened. *)
Record Process : Type := {
  asr_model : option (nat * ASRModel);
  objects : nat;
  trace : list Event
}.

Definition initial : Process :=
  {| asr_model := None; objects := 0; trace := [] |}.

(** Appending to the trace. *)
Definition extend (p : Process) (es : list Event) : Process :=
  {| asr_model := asr_model p; objects := objects p; trace := trace p ++ es |}.

Definition record (es : list Event) : M Process unit :=
  modify (λ p, extend p es).

(** Running a method of an engine object: its events are appended, its
    result or exception is passed on. *)
Definition perform {A} (c : Eff A) : M Process A :=
  record (EEngine <$> c.2) ;;; lift_result c.1.

(** Reading the global [asr_model]. *)
Definition read_asr_model : M Process (nat * ASRModel) :=
  λ p, match asr_model p with
       | Some m => (Ok m, p)
       | None => (Raise (NameError "asr_model"), p)
       end.

(** Binding the global [asr_model]. *)
Definition bind_asr_model (m : nat * ASRModel) : M Process unit :=
  modify (λ p, {| asr_model := Some m; objects := objects p; trace := trace p |}).

(** [d[k]] on a [dict]. *)
Definition subscript {S V} (d : gmap string V) (k : string) : M S V :=
  match d !! k with
  | Some v => ret v
  | None => raise (KeyError k)
  end.

(** Method calls on an engine object: the call is recorded with its
    receiver and arguments, then the method runs. *)
Definition call_load_model (m : nat * ASRModel) : M Process unit :=
  record [ELoadModel m.1] ;;; perform (load_model m.2).

Definition call_transcribe (m : nat * ASRModel) (args : TranscribeArgs)
  : M Process Stream :=
  record [ETranscribe m.1 args] ;;; perform (transcribe m.2 args).

Definition call_language_detection (m : nat * ASRModel) (audio : Waveform)
  : M Process (string * Q) :=
  record [ELanguageDetection m.1 audio] ;;;
  perform (language_detection m.2 audio).

Section Webservice.

Variable env : Environment.

(** [ASRModelFactory.create_asr_model()]: which engine is built, or the
    failure, is the factory's business; a success yields a new object. *)
Definition ASRModelFactory_create_asr_model : M Process (nat * ASRModel) :=
  e <- lift_result (create_asr_model env (CONFIG env)) ;;
  p <- get ;;
  modify (λ p, {| asr_model := asr_model p; objects := S (objects p);
                  trace := trace p ++ [ECreate (objects p)] |}) ;;;
  ret (objects p, e).

(** The module body, run once when the process imports the module:
    [asr_model = ASRModelFactory.create_asr_model()] and
    [asr_model.load_model()]. *)
Definition import_module : M Process unit :=
  m <- ASRModelFactory_create_asr_model ;;
  bind_asr_model m ;;;
  m' <- read_asr_model ;;
  call_load_model m'.

(** [GET /] *)
Definition index : M Process Response := ret (Redirect "/docs").

(** The [headers] dict of both streaming responses. *)
Definition content_disposition (name : string) (format : option string)
  : string :=
  "attachment; filename=" +:+ Str.dquote +:+ Urllib.quote name +:+ "."
    +:+ py_str format +:+ Str.dquote.

Definition response_headers (name : string) (format : option string)
  : gmap string string :=
  <["Content-Disposition" := content_disposition name format]>
    (<["Asr-Engine" := ASR_ENGINE (CONFIG env)]> ∅).

(** [StreamingResponse(content, media_type=..., headers=...)]: the
    constructor encodes every header value as latin-1 and raises when one
    of them cannot be. *)
Definition encodable (headers : gmap string string) : bool :=
  bool_decide (map_Forall (λ _ v, latin1 v = true) headers).

Definition new_StreamingResponse (content : Stream) (media_type : string)
    (headers : gmap string string) : M Process Response :=
  if encodable headers
  then ret (StreamingResponse content media_type headers)
  else raise UnicodeEncodeError.

(** [POST /asr] *)
Definition asr (audio_file : UploadFile) (encode : bool)
    (task language initial_prompt : option string)
    (vad_filter : option bool) (word_timestamps diarize : bool)
    (min_speakers max_speakers : option Z) (output : option string)
  : M Process Response :=
  m <- read_asr_model ;;
  audio <- lift_result (load_audio env (file audio_file) encode) ;;
  result <- call_transcribe m
    {| t_audio := audio;
       t_task := task;
       t_language := language;
       t_initial_prompt := initial_prompt;
       t_vad_filter := vad_filter;
       t_word_timestamps := word_timestamps;
       t_options := {| diarize := diarize;
                       min_speakers := min_speakers;
                       max_speakers := max_speakers |};
       t_output := output |} ;;
  new_StreamingResponse result "text/plain"
    (response_headers (filename audio_file) output).

(** [POST /audio/transcriptions] *)
Definition transcriptions (file_ : UploadFile) (encode : bool)
    (language prompt : option string)
    (vad_filter : option bool) (word_timestamps diarize : bool)
    (min_speakers max_speakers : option Z)
    (model response_format : option string)
  : M Process Response :=
  m <- read_asr_model ;;
  audio <- lift_result (load_audio env (file file_) encode) ;;
  result <- call_transcribe m
    {| t_audio := audio;
       t_task := Some "transcribe";
       t_language := language;
       t_initial_prompt := prompt;
       t_vad_filter := vad_filter;
       t_word_timestamps := word_timestamps;
       t_options := {| diarize := diarize;
                       min_speakers := min_speakers;
                       max_speakers := max_speakers |};
       t_output := response_format |} ;;
  new_StreamingResponse result "text/plain"
    (response_headers (filename file_) response_format).

(** [POST /detect-language] *)
Definition detect_language (audio_file : UploadFile) (encode : bool)
  : M Process Response :=
  m <- read_asr_model ;;
  audio <- lift_result (load_audio env (file audio_file) encode) ;;
  detected <- call_language_detection m audio ;;
  let detected_lang_code := detected.1 in
  let confidence := detected.2 in
  name <- subscript (LANGUAGES env) detected_lang_code ;;
  ret (JSONObject
         (<["confidence" := JNumber confidence]>
            (<["language_code" := JString detected_lang_code]>
               (<["detected_language" := JString name]> ∅)))).

(** The framework fills each handler parameter from the request, or from
    the declared default when the request leaves it out. *)
Definition asr_endpoint (r : AsrRequest) : M Process Response :=
  asr (a_audio_file r)
      (bind_bool (encode_param InQuery) (a_encode r))
      (bind_str asr_task (a_task r))
      (bind_str (language_param env InQuery) (a_language r))
      (bind_str asr_initial_prompt (a_initial_prompt r))
      (bind_opt_bool (vad_filter_param env InQuery) (a_vad_filter r))
      (bind_bool (word_timestamps_param env InQuery) (a_word_timestamps r))
      (bind_bool (diarize_param env InQuery) (a_diarize r))
      (bind_int (min_speakers_param env InQuery) (a_min_speakers r))
      (bind_int (max_speakers_param env InQuery) (a_max_speakers r))
      (bind_str asr_output (a_output r)).

Definition transcriptions_endpoint (r : TranscriptionsRequest)
  : M Process Response :=
  transcriptions (f_file r)
      (bind_bool (encode_param InForm) (f_encode r))
      (bind_str (language_param env InForm) (f_language r))
      (bind_str tr_prompt (f_prompt r))
      (bind_opt_bool (vad_filter_param env InForm) (f_vad_filter r))
      (bind_bool (word_timestamps_param env InForm) (f_word_timestamps r))
      (bind_bool (diarize_param env InForm) (f_diarize r))
      (bind_int (min_speakers_param env InForm) (f_min_speakers r))
      (bind_int (max_speakers_param env InForm) (f_max_speakers r))
      (bind_str tr_model (f_model r))
      (bind_str tr_response_format (f_response_format r)).

Definition detect_language_endpoint (r : DetectLanguageRequest)
  : M Process Response :=
  detect_language (d_audio_file r) (bind_bool dl_encode (d_encode r)).

Definition handle (r : Request) : M Process Response :=
  match r with
  | GetIndex => index
  | PostAsr r => asr_endpoint r
  | PostTranscriptions r => transcriptions_endpoint r
  | PostDetectLanguage r => detect_language_endpoint r
  end.

(** The requests are served one after the other (no handler awaits, so
    each runs to completion); an exception ends the request, not the
    server. *)
Fixpoint serve (rs : list Request) (p : Process)
  : list (result Response) * Process :=
  match rs with
  | [] => ([], p)
  | r :: rs' =>
      let (x, p') := handle r p in
      let (xs, p'') := serve rs' p' in
      (x :: xs, p'')
  end.

(** The life of the process: import the module, then serve.  When the
    import raises, the process ends without serving. *)
Definition run (rs : list Request) : result (list (result Response)) * Process :=
  match import_module initial with
  | (Ok _, p) => let (xs, p') := serve rs p in (Ok xs, p')
  | (Raise e, p) => (Raise e, p)
  end.

End Webservice.

(** ** The collaborators described by the design document

    The engines ([app.asr_models]), the audio loader ([app.utils]) and the
    translation of exceptions to HTTP statuses are not in [webservice.py].
    They are modelled here from the design document, to settle the
    statements that depend on them. *)

Module Engine.

(** Modelled from the spec: the three engine variants of section 4.2,
    which are missing from the sources. *)
Inductive Variant : Type := Reference | Optimized | DiarizationAugmented.

(** Modelled from the spec: [EngineCapabilities] (sections 2 and 3), the
    optional features a variant advertises. *)
Record EngineCapabilities : Type := {
  cap_vad : bool;
  cap_word_timestamps : bool;
  cap_diarization : bool;
  cap_language_detection : bool
}.

(** Modelled from the spec: the capability table of section 4.2.  The
    reference variant has "capabilities all false" beyond transcription
    and language detection; the optimized variant adds VAD and word
    timestamps; the diarization-augmented variant wraps the optimized
    one. *)
Definition capabilities (v : Variant) : EngineCapabilities :=
  match v with
  | Reference =>
      {| cap_vad := false; cap_word_timestamps := false;
         cap_diarization := false; cap_language_detection := true |}
  | Optimized =>
      {| cap_vad := true; cap_word_timestamps := true;
         cap_diarization := false; cap_language_detection := true |}
  | DiarizationAugmented =>
      {| cap_vad := true; cap_word_timestamps := true;
         cap_diarization := true; cap_language_detection := true |}
  end.

(** Modelled from the spec: [TranscriptionOptions] (section 3), the
    options that reach the model. *)
Record TranscriptionOptions : Type := {
  task : option string;
  language : option string;
  initialPrompt : option string;
  vadFilter : bool;
  wordTimestamps : bool;
  diarization : DiarizeOptions;
  outputFormat : option string
}.

(** Modelled from the spec: [vadFilter] is a plain flag (section 3); a
    [vad_filter] of [None] counts as off. *)
Definition truthy (o : option bool) : bool :=
  match o with Some b => b | None => false end.

(** Modelled from the spec: diarization switched off (section 3). *)
Definition no_diarization : DiarizeOptions :=
  {| diarize := false; min_speakers := None; max_speakers := None |}.

(** Modelled from the spec: capability gating (section 3).  An option the
    engine does not advertise is silently ignored: it reaches the model
    switched off. *)
Definition gate (c : EngineCapabilities) (a : TranscribeArgs)
  : TranscriptionOptions :=
  {| task := t_task a;
     language := t_language a;
     initialPrompt := t_initial_prompt a;
     vadFilter := cap_vad c && truthy (t_vad_filter a);
     wordTimestamps := cap_word_timestamps c && t_word_timestamps a;
     diarization := if cap_diarization c && diarize (t_options a)
                    then t_options a else no_diarization;
     outputFormat := t_output a |}.

(** Modelled from the spec: the speaker bounds contradict each other when
    both are given and [minSpeakers > maxSpeakers] (section 4.2). *)
Definition contradictory (o : DiarizeOptions) : bool :=
  match min_speakers o, max_speakers o with
  | Some lo, Some hi => (hi <? lo)%Z
  | _, _ => false
  end.

(** Modelled from the spec: the neural model and the formatter behind an
    engine (sections 1, 4.1 and 4.4), opaque to the dispatch layer: what
    the model makes of a waveform under given options, and which language
    it hears.  Either may fail: with [InvalidAudioError] on a malformed
    waveform, with [EngineTimeoutError] when the model exceeds its time
    budget, with [InvalidSegmentError] in the formatter. *)
Record Model : Type := {
  decode : Waveform → TranscriptionOptions → result Stream;
  detect : Waveform → result (string * Q)
}.

(** Modelled from the spec: [transcribe] (sections 4.1 and 4.2).  It
    fails with [InvalidAudioError] on an empty waveform; the
    diarization-augmented variant fails with [InvalidOptionError] on
    contradictory bounds; both before the model runs.  Otherwise the
    model runs on the gated options, and its failure is the engine's. *)
Definition transcribe (v : Variant) (m : Model) (a : TranscribeArgs)
  : Eff Stream :=
  match t_audio a with
  | [] => (Raise InvalidAudioError, [])
  | _ :: _ =>
      let c := capabilities v in
      if cap_diarization c && diarize (t_options a)
         && contradictory (t_options a)
      then (Raise InvalidOptionError, [])
      else (decode m (t_audio a) (gate c a), [Inference])
  end.

(** Modelled from the spec: [detectLanguage] (section 4.1) fails with
    [InvalidAudioError] on empty input; otherwise the model runs, and its
    failure is the engine's. *)
Definition language_detection (m : Model) (w : Waveform)
  : Eff (string * Q) :=
  match w with
  | [] => (Raise InvalidAudioError, [])
  | _ :: _ => (detect m w, [Inference])
  end.

(** Modelled from the spec: the engine object of a variant; loading the
    model loads the weights and cannot fail. *)
Definition engine (v : Variant) (m : Model) : ASRModel :=
  Build_ASRModel (Ok tt, [WeightsLoaded]) (transcribe v m)
                 (language_detection m).

(** Modelled from the spec: [LanguageDetectionResult] (section 3) has a
    confidence score in [[0,1]]. *)
Definition calibrated (m : Model) : Prop :=
  ∀ w code conf,
    detect m w = Ok (code, conf) → (0 <= conf)%Q ∧ (conf <= 1)%Q.

End Engine.

(** Modelled from the spec: the audio source (section 2) behind
    [app.utils.load_audio], which is missing from the sources.  An empty
    upload and an upload the decoder rejects are client-input errors,
    [InvalidAudioError] (section 7); otherwise the decoder yields the
    waveform. *)
Definition load_audio_spec (decoder : list Byte.byte → bool → option Waveform)
    (bytes : list Byte.byte) (encode : bool) : result Waveform :=
  match bytes with
  | [] => Raise InvalidAudioError
  | _ :: _ =>
      match decoder bytes encode with
      | Some w => Ok w
      | None => Raise InvalidAudioError
      end
  end.

(** Modelled from the spec: the HTTP status a request ends with (section
    7).  A handler that returns answers 200 (the redirect of [GET /]
    answers 307); [InvalidAudioError] and [InvalidOptionError] surface as
    400, [EngineTimeoutError] as 504, anything else as a server error. *)
Definition http_status (r : result Response) : nat :=
  match r with
  | Ok (Redirect _) => 307
  | Ok _ => 200
  | Raise InvalidAudioError => 400
  | Raise InvalidOptionError => 400
  | Raise EngineTimeoutError => 504
  | Raise _ => 500
  end.

(** ** Reading a trace *)

(** The engine objects built, in order. *)
Definition created (t : list Event) : list nat :=
  omap (λ e, match e with ECreate id => Some id | _ => None end) t.

(** The receiver of every method call made on an engine object. *)
Definition receivers (t : list Event) : list nat :=
  omap (λ e, match e with
             | ELoadModel id | ETranscribe id _ | ELanguageDetection id _ =>
                 Some id
             | _ => None
             end) t.

(** The [transcribe] calls, with receiver and arguments. *)
Definition transcribe_calls (t : list Event) : list (nat * TranscribeArgs) :=
  omap (λ e, match e with ETranscribe id a => Some (id, a) | _ => None end) t.

(** How often the model was run. *)
Definition inferences (t : list Event) : nat :=
  length (omap (λ e, match e with
                     | EEngine Inference => Some e
                     | _ => None
                     end) t).

(** What a step added to the trace. *)
Definition since (p p' : Process) : list Event :=
  drop (length (trace p)) (trace p').

(** ** A small installation

    A concrete configuration, model, decoder and language table, on which
    the statements below are exercised. *)

Module Sample.

(** A model that gives up on more than a thousand samples. *)
Definition model : Engine.Model :=
  {| Engine.decode := λ w o,
       if (1000 <? length w)%nat then Raise EngineTimeoutError
       else Ok [ py_str (Engine.task o);
                 if Engine.vadFilter o then " speech only: " else " all audio: ";
                 "hello world" ];
     Engine.detect := λ w,
       if (1000 <? length w)%nat then Raise EngineTimeoutError
       else Ok ("en", 9 # 10) |}.

(** Raw bytes are samples; an upload starting with a zero byte is
    rejected. *)
Definition decoder (bytes : list Byte.byte) (encode : bool)
  : option Waveform :=
  match bytes with
  | Byte.x00 :: _ => None
  | _ => Some ((λ b, Z.of_N (Byte.to_N b)) <$> bytes)
  end.

Definition languages : gmap string string :=
  <["en" := "english"]> (<["de" := "german"]> (<["zh" := "chinese"]> ∅)).

Definition factory (cfg : Config) : result ASRModel :=
  if decide (ASR_ENGINE cfg = "openai_whisper")
  then Ok (Engine.engine Engine.Reference model)
  else if decide (ASR_ENGINE cfg = "faster_whisper")
  then Ok (Engine.engine Engine.Optimized model)
  else if decide (ASR_ENGINE cfg = "whisperx")
  then Ok (Engine.engine Engine.DiarizationAugmented model)
  else Raise EngineConstructionError.

Definition env (engine_name : string) : Environment :=
  {| CONFIG := {| ASR_ENGINE := engine_name; HF_TOKEN := "hf_token" |};
     create_asr_model := factory;
     load_audio := load_audio_spec decoder;
     LANGUAGES := languages |}.

(** The process once the module is imported. *)
Definition started (engine_name : string) : Process :=
  (import_module (env engine_name) initial).2.

Definition upload : UploadFile :=
  {| filename := "my talk.wav"; file := [Byte.x01; Byte.x02; Byte.x03] |}.

Definition empty_upload : UploadFile :=
  {| filename := "empty.wav"; file := [] |}.

Definition asr_request (f : UploadFile) : AsrRequest :=
  {| a_audio_file := f; a_encode := None; a_task := None;
     a_language := None; a_initial_prompt := None; a_vad_filter := None;
     a_word_timestamps := None; a_diarize := None;
     a_min_speakers := None; a_max_speakers := None; a_output := None |}.

Definition transcriptions_request (f : UploadFile) : TranscriptionsRequest :=
  {| f_file := f; f_encode := None; f_language := None; f_prompt := None;
     f_vad_filter := None; f_word_timestamps := None; f_diarize := None;
     f_min_speakers := None; f_max_speakers := None; f_model := None;
     f_response_format := None |}.

Definition detect_request (f : UploadFile) : DetectLanguageRequest :=
  {| d_audio_file := f; d_encode := None |}.

(** A request that sets every optional parameter. *)
Definition full_asr_request : AsrRequest :=
  {| a_audio_file := upload; a_encode := Some false;
     a_task := Some "translate"; a_language := Some "de";
     a_initial_prompt := Some "Guten Tag"; a_vad_filter := Some true;
     a_word_timestamps := Some true; a_diarize := Some true;
     a_min_speakers := Some 2%Z; a_max_speakers := Some 4%Z;
     a_output := Some "srt" |}.

Definition full_transcriptions_request : TranscriptionsRequest :=
  {| f_file := upload; f_encode := Some false; f_language := Some "de";
     f_prompt := Some "Guten Tag"; f_vad_filter := Some true;
     f_word_timestamps := Some true; f_diarize := Some true;
     f_min_speakers := Some 2%Z; f_max_speakers := Some 4%Z;
     f_model := Some "whisper-large"; f_response_format := Some "vtt" |}.

(** A request for diarization with contradictory bounds: at least three
    speakers, at most two. *)
Definition contradictory_request (f : UploadFile) : AsrRequest :=
  {| a_audio_file := f; a_encode := None; a_task := None;
     a_language := None; a_initial_prompt := None; a_vad_filter := None;
     a_word_timestamps := None; a_diarize := Some true;
     a_min_speakers := Some 3%Z; a_max_speakers := Some 2%Z;
     a_output := None |}.

Definition requests : list Request :=
  [ GetIndex;
    PostAsr (asr_request upload);
    PostDetectLanguage (detect_request upload);
    PostAsr (asr_request empty_upload);
    PostTranscriptions (transcriptions_request upload) ].

(** What the server answers to [requests], and the process after. *)
Definition answers (engine_name : string) : list (result Response) :=
  match (run (env engine_name) requests).1 with
  | Ok xs => xs
  | Raise _ => []
  end.

Definition served (engine_name : string) : Process :=
  (run (env engine_name) requests).2.

End Sample.

(** ** Vocabulary of the statements *)

(** The optional parameters of the two transcription endpoints, as sent. *)
Record OptionalParameters : Type := {
  o_vad_filter : option bool;
  o_word_timestamps : option bool;
  o_diarize : option bool;
  o_min_speakers : option Z;
  o_max_speakers : option Z
}.

Definition asr_optional (r : AsrRequest) : OptionalParameters :=
  {| o_vad_filter := a_vad_filter r;
     o_word_timestamps := a_word_timestamps r;
     o_diarize := a_diarize r;
     o_min_speakers := a_min_speakers r;
     o_max_speakers := a_max_speakers r |}.

Definition transcriptions_optional (r : TranscriptionsRequest)
  : OptionalParameters :=
  {| o_vad_filter := f_vad_filter r;
     o_word_timestamps := f_word_timestamps r;
     o_diarize := f_diarize r;
     o_min_speakers := f_min_speakers r;
     o_max_speakers := f_max_speakers r |}.

(** The arguments of a [transcribe] call carry the optional parameters of
    the request: the value sent, or [False] for a flag left out and [None]
    for a bound left out. *)
Definition forwarded (o : OptionalParameters) (a : TranscribeArgs) : Prop :=
  t_vad_filter a = Some (default false (o_vad_filter o))
  ∧ t_word_timestamps a = default false (o_word_timestamps o)
  ∧ diarize (t_options a) = default false (o_diarize o)
  ∧ min_speakers (t_options a) = o_min_speakers o
  ∧ max_speakers (t_options a) = o_max_speakers o.

(** The arguments [asr] builds for a request whose upload decodes to
    [audio]. *)
Definition asr_call (r : AsrRequest) (audio : Waveform) : TranscribeArgs :=
  {| t_audio := audio;
     t_task := Some (default "transcribe" (a_task r));
     t_language := a_language r;
     t_initial_prompt := a_initial_prompt r;
     t_vad_filter := Some (default false (a_vad_filter r));
     t_word_timestamps := default false (a_word_timestamps r);
     t_options := {| diarize := default false (a_diarize r);
                     min_speakers := a_min_speakers r;
                     max_speakers := a_max_speakers r |};
     t_output := Some (default "txt" (a_output r)) |}.

(** A form field of type string as the handler receives it, up to its
    default: sent empty, it counts as left out. *)
Definition nonempty (sent : option string) : option string :=
  match sent with
  | Some EmptyString => None
  | _ => sent
  end.

(** The arguments [transcriptions] builds. *)
Definition transcriptions_call (r : TranscriptionsRequest) (audio : Waveform)
  : TranscribeArgs :=
  {| t_audio := audio;
     t_task := Some "transcribe";
     t_language := nonempty (f_language r);
     t_initial_prompt := nonempty (f_prompt r);
     t_vad_filter := Some (default false (f_vad_filter r));
     t_word_timestamps := default false (f_word_timestamps r);
     t_options := {| diarize := default false (f_diarize r);
                     min_speakers := f_min_speakers r;
                     max_speakers := f_max_speakers r |};
     t_output := Some (default "json" (nonempty (f_response_format r))) |}.


(** The same request with another [vad_filter], another [model]. *)
Definition with_vad_filter (v : option bool) (r : AsrRequest) : AsrRequest :=
  {| a_audio_file := a_audio_file r; a_encode := a_encode r;
     a_task := a_task r; a_language := a_language r;
     a_initial_prompt := a_initial_prompt r; a_vad_filter := v;
     a_word_timestamps := a_word_timestamps r; a_diarize := a_diarize r;
     a_min_speakers := a_min_speakers r; a_max_speakers := a_max_speakers r;
     a_output := a_output r |}.

Definition with_model (m : option string) (r : TranscriptionsRequest)
  : TranscriptionsRequest :=
  {| f_file := f_file r; f_encode := f_encode r; f_language := f_language r;
     f_prompt := f_prompt r; f_vad_filter := f_vad_filter r;
     f_word_timestamps := f_word_timestamps r; f_diarize := f_diarize r;
     f_min_speakers := f_min_speakers r; f_max_speakers := f_max_speakers r;
     f_model := m; f_response_format := f_response_format r |}.

(** The upload of a request, its [encode] flag and its diarization
    options, as the handler receives them. *)
Definition upload_of (req : Request) : option UploadFile :=
  match req with
  | GetIndex => None
  | PostAsr r => Some (a_audio_file r)
  | PostTranscriptions r => Some (f_file r)
  | PostDetectLanguage r => Some (d_audio_file r)
  end.

Definition encode_of (req : Request) : bool :=
  match req with
  | GetIndex => true
  | PostAsr r => default true (a_encode r)
  | PostTranscriptions r => default true (f_encode r)
  | PostDetectLanguage r => default true (d_encode r)
  end.

Definition diarization_of (req : Request) : option DiarizeOptions :=
  match req with
  | PostAsr r =>
      Some {| diarize := default false (a_diarize r);
              min_speakers := a_min_speakers r;
              max_speakers := a_max_speakers r |}
  | PostTranscriptions r =>
      Some {| diarize := default false (f_diarize r);
              min_speakers := f_min_speakers r;
              max_speakers := f_max_speakers r |}
  | _ => None
  end.

(** The response built around what [transcribe] returned. *)
Definition streamed (env : Environment) (name : string)
    (format : option string) (r : result Stream) : result Response :=
  match r with
  | Ok s =>
      if encodable (response_headers env name format)
      then Ok (StreamingResponse s "text/plain"
                 (response_headers env name format))
      else Raise UnicodeEncodeError
  | Raise e => Raise e
  end.

(** What a step may add to the trace: no engine object is built, and every
    call goes to the object the global [asr_model] refers to. *)
Definition quiet (p : Process) (es : list Event) : Prop :=
  created es = []
  ∧ ∀ id, id ∈ receivers es → ∃ e, asr_model p = Some (id, e).

(** The answer built around what [language_detection] returned. *)
Definition detected (env : Environment) (r : result (string * Q))
  : result Response :=
  match r with
  | Ok (code, conf) =>
      match LANGUAGES env !! code with
      | Some name =>
          Ok (JSONObject
                (<["confidence" := JNumber conf]>
                   (<["language_code" := JString code]>
                      (<["detected_language" := JString name]> ∅))))
      | None => Raise (KeyError code)
      end
  | Raise e => Raise e
  end.

(** Modelled from the spec: an engine whose language detection returns a
    confidence score in [[0,1]] ([LanguageDetectionResult], section 3). *)
Definition scores_in_unit_interval (e : ASRModel) : Prop :=
  ∀ w code conf,
    (language_detection e w).1 = Ok (code, conf) → (0 <= conf)%Q ∧ (conf <= 1)%Q.

(** A character that needs no quoting in a URL, or the percent sign. *)
Definition url_char (c : ascii) : bool :=
  Urllib.always_safe c || Urllib.default_safe c || (nat_of_ascii c =? 37)%nat.

(** ** Further vocabulary *)

(** The [language_detection] calls of a trace, with receiver and audio. *)
Definition detections (t : list Event) : list (nat * Waveform) :=
  omap (λ e, match e with
             | ELanguageDetection id w => Some (id, w)
             | _ => None
             end) t.

(** The receivers of the [load_model] calls of a trace. *)
Definition loads (t : list Event) : list nat :=
  omap (λ e, match e with ELoadModel id => Some id | _ => None end) t.

(** What serving one request adds to the trace. *)
Definition added (env : Environment) (req : Request) (p : Process)
  : list Event :=
  since p (handle env req p).2.


(** The value of a hexadecimal digit, in either case. *)
Definition hex_value (c : ascii) : option nat :=
  let n := nat_of_ascii c in
  if Urllib.is_digit n then Some (n - 48)
  else if (65 <=? n)%nat && (n <=? 70)%nat then Some (n - 55)
  else if (97 <=? n)%nat && (n <=? 102)%nat then Some (n - 87)
  else None.

(** [urllib.parse.unquote] on a byte string, what a client applies to the
    file name of the [Content-Disposition] header: [%XX] with two
    hexadecimal digits stands for the byte [XX], anything else for
    itself. *)
Fixpoint unquote (s : string) : string :=
  match s with
  | EmptyString => EmptyString
  | String c rest =>
      if (nat_of_ascii c =? 37)%nat then
        match rest with
        | String h (String l rest') =>
            match hex_value h, hex_value l with
            | Some a, Some b => String (ascii_of_nat (16 * a + b)) (unquote rest')
            | _, _ => String c (unquote rest)
            end
        | _ => String c (unquote rest)
        end
      else String c (unquote rest)
  end.

(** The bytes of a string that [quote] escapes. *)
Fixpoint escaped (s : string) : nat :=
  match s with
  | EmptyString => 0
  | String c s' =>
      (if Urllib.always_safe c || Urllib.default_safe c then 0 else 1)
      + escaped s'
  end.

(** The parameters every engine documents, before and after the optional
    ones. *)
Definition asr_core : list string :=
  ["audio_file"; "encode"; "task"; "language"; "initial_prompt"].

Definition transcriptions_core : list string :=
  ["file"; "encode"; "language"; "prompt"].

(** The optional parameters the documentation lists for a configuration,
    in order. *)
Definition optional_documented (cfg : Config) : list string :=
  (if bool_decide (ASR_ENGINE cfg = "faster_whisper")
   then ["vad_filter"; "word_timestamps"] else [])
  ++ (if bool_decide (ASR_ENGINE cfg = "whisperx")
         && negb (bool_decide (HF_TOKEN cfg = EmptyString))
      then ["diarize"] else [])
  ++ (if bool_decide (ASR_ENGINE cfg = "whisperx")
      then ["min_speakers"; "max_speakers"] else []).

(** More of the small installation: an upload the decoder rejects, an
    engine that times out, and an engine that hears a language the table
    does not know. *)
Module Sample2.

Definition garbled_upload : UploadFile :=
  {| filename := "noise.bin"; file := [Byte.x00; Byte.x07] |}.

Definition slow_engine : ASRModel :=
  Build_ASRModel (Ok tt, [WeightsLoaded])
    (λ _, (Raise EngineTimeoutError, [Inference]))
    (λ _, (Raise EngineTimeoutError, [Inference])).

Definition stranger_engine : ASRModel :=
  Build_ASRModel (Ok tt, [WeightsLoaded])
    (λ a, (Ok ["?"], [Inference]))
    (λ w, (Ok ("tlh", 1 # 2), [Inference])).

(** An engine whose weights fail to load. *)
Definition broken_engine : ASRModel :=
  Build_ASRModel (Raise EngineConstructionError, [])
    (λ a, (Ok [], [])) (λ w, (Ok ("en", 1 # 1), [])).

Definition process_with (e : ASRModel) : Process :=
  {| asr_model := Some (0, e); objects := 1;
     trace := [ECreate 0; ELoadModel 0; EEngine WeightsLoaded] |}.

Definition env_with (e : ASRModel) : Environment :=
  {| CONFIG := {| ASR_ENGINE := "custom"; HF_TOKEN := EmptyString |};
     create_asr_model := λ _, Ok e;
     load_audio := load_audio_spec Sample.decoder;
     LANGUAGES := Sample.languages |}.

(** A request for a format outside the documented five, one for a format
    whose name is not latin-1 (the two bytes of U+010D), and a form sent
    with empty strings. *)
Definition odd_format_request : AsrRequest :=
  {| a_audio_file := Sample.upload; a_encode := None; a_task := None;
     a_language := None; a_initial_prompt := None; a_vad_filter := None;
     a_word_timestamps := None; a_diarize := None;
     a_min_speakers := None; a_max_speakers := None;
     a_output := Some "xyz" |}.

Definition wide_format : string :=
  String "196"%char (String "141"%char EmptyString).

Definition wide_format_request : AsrRequest :=
  {| a_audio_file := Sample.upload; a_encode := None; a_task := None;
     a_language := None; a_initial_prompt := None; a_vad_filter := None;
     a_word_timestamps := None; a_diarize := None;
     a_min_speakers := None; a_max_speakers := None;
     a_output := Some wide_format |}.

Definition empty_fields_request : TranscriptionsRequest :=
  {| f_file := Sample.upload; f_encode := None;
     f_language := Some EmptyString; f_prompt := Some EmptyString;
     f_vad_filter := None; f_word_timestamps := None; f_diarize := None;
     f_min_speakers := None; f_max_speakers := None;
     f_model := Some EmptyString; f_response_format := Some EmptyString |}.

End Sample2.

(** * Properties *)

(** ** How a handler runs *)

Lemma extend_nil (p : Process) : extend p [] = p.
Proof. destruct p; unfold extend; simpl. by rewrite app_nil_r. Qed.

Lemma extend_extend (p : Process) (a b : list Event) :
  extend (extend p a) b = extend p (a ++ b).
Proof. unfold extend; simpl. by rewrite app_assoc. Qed.

Lemma since_extend (p : Process) (es : list Event) : since p (extend p es) = es.
Proof. unfold since, extend; simpl. by rewrite drop_app_length. Qed.

Lemma perform_run {A} (c : Eff A) (p : Process) :
  perform c p = (c.1, extend p (EEngine <$> c.2)).
Proof. destruct c as [[a|e] es]; reflexivity. Qed.

Lemma call_transcribe_run (m : nat * ASRModel) (a : TranscribeArgs) (p : Process) :
  call_transcribe m a p
  = ((transcribe m.2 a).1,
     extend p (ETranscribe m.1 a :: (EEngine <$> (transcribe m.2 a).2))).
Proof.
  unfold call_transcribe, bind, record, modify.
  rewrite perform_run, extend_extend. reflexivity.
Qed.

Lemma call_language_detection_run (m : nat * ASRModel) (w : Waveform) (p : Process) :
  call_language_detection m w p
  = ((language_detection m.2 w).1,
     extend p (ELanguageDetection m.1 w
                 :: (EEngine <$> (language_detection m.2 w).2))).
Proof.
  unfold call_language_detection, bind, record, modify.
  rewrite perform_run, extend_extend. reflexivity.
Qed.

Lemma call_load_model_run (m : nat * ASRModel) (p : Process) :
  call_load_model m p
  = ((load_model m.2).1,
     extend p (ELoadModel m.1 :: (EEngine <$> (load_model m.2).2))).
Proof.
  unfold call_load_model, bind, record, modify.
  rewrite perform_run, extend_extend. reflexivity.
Qed.

Section Runs.

Variable env : Environment.

Lemma asr_endpoint_run (r : AsrRequest) (p : Process) :
  asr_endpoint env r p
  = match asr_model p with
    | None => (Raise (NameError "asr_model"), p)
    | Some m =>
        match load_audio env (file (a_audio_file r)) (default true (a_encode r)) with
        | Raise e => (Raise e, p)
        | Ok audio =>
            let a := asr_call r audio in
            (streamed env (filename (a_audio_file r)) (t_output a)
               (transcribe m.2 a).1,
             extend p (ETranscribe m.1 a :: (EEngine <$> (transcribe m.2 a).2)))
        end
    end.
Proof.
  unfold asr_endpoint, asr, bind, read_asr_model, lift_result.
  destruct (asr_model p) as [m|]; [|reflexivity].
  replace (bind_bool (encode_param InQuery) (a_encode r))
    with (default true (a_encode r)) by (by destruct (a_encode r)).
  destruct (load_audio env _ _) as [audio|e]; [|reflexivity].
  rewrite call_transcribe_run.
  replace (bind_str asr_task (a_task r))
    with (Some (default "transcribe" (a_task r))) by (by destruct (a_task r)).
  replace (bind_str (language_param env InQuery) (a_language r))
    with (a_language r) by (by destruct (a_language r)).
  replace (bind_str asr_initial_prompt (a_initial_prompt r))
    with (a_initial_prompt r) by (by destruct (a_initial_prompt r)).
  replace (bind_opt_bool (vad_filter_param env InQuery) (a_vad_filter r))
    with (Some (default false (a_vad_filter r)))
    by (by destruct (a_vad_filter r)).
  replace (bind_bool (word_timestamps_param env InQuery) (a_word_timestamps r))
    with (default false (a_word_timestamps r))
    by (by destruct (a_word_timestamps r)).
  replace (bind_bool (diarize_param env InQuery) (a_diarize r))
    with (default false (a_diarize r)) by (by destruct (a_diarize r)).
  replace (bind_int (min_speakers_param env InQuery) (a_min_speakers r))
    with (a_min_speakers r) by (by destruct (a_min_speakers r)).
  replace (bind_int (max_speakers_param env InQuery) (a_max_speakers r))
    with (a_max_speakers r) by (by destruct (a_max_speakers r)).
  replace (bind_str asr_output (a_output r))
    with (Some (default "txt" (a_output r))) by (by destruct (a_output r)).
  fold (asr_call r audio).
  unfold streamed, new_StreamingResponse. simpl.
  destruct (transcribe m.2 (asr_call r audio)) as [[s|e] es]; [|reflexivity].
  simpl. by destruct (encodable _).
Qed.

Lemma transcriptions_endpoint_run (r : TranscriptionsRequest) (p : Process) :
  transcriptions_endpoint env r p
  = match asr_model p with
    | None => (Raise (NameError "asr_model"), p)
    | Some m =>
        match load_audio env (file (f_file r)) (default true (f_encode r)) with
        | Raise e => (Raise e, p)
        | Ok audio =>
            let a := transcriptions_call r audio in
            (streamed env (filename (f_file r)) (t_output a)
               (transcribe m.2 a).1,
             extend p (ETranscribe m.1 a :: (EEngine <$> (transcribe m.2 a).2)))
        end
    end.
Proof.
  unfold transcriptions_endpoint, transcriptions, bind, read_asr_model,
    lift_result.
  destruct (asr_model p) as [m|]; [|reflexivity].
  replace (bind_bool (encode_param InForm) (f_encode r))
    with (default true (f_encode r)) by (by destruct (f_encode r)).
  destruct (load_audio env _ _) as [audio|e]; [|reflexivity].
  rewrite call_transcribe_run.
  replace (bind_str (language_param env InForm) (f_language r))
    with (nonempty (f_language r)) by (by destruct (f_language r) as [[|]|]).
  replace (bind_str tr_prompt (f_prompt r))
    with (nonempty (f_prompt r)) by (by destruct (f_prompt r) as [[|]|]).
  replace (bind_opt_bool (vad_filter_param env InForm) (f_vad_filter r))
    with (Some (default false (f_vad_filter r)))
    by (by destruct (f_vad_filter r)).
  replace (bind_bool (word_timestamps_param env InForm) (f_word_timestamps r))
    with (default false (f_word_timestamps r))
    by (by destruct (f_word_timestamps r)).
  replace (bind_bool (diarize_param env InForm) (f_diarize r))
    with (default false (f_diarize r)) by (by destruct (f_diarize r)).
  replace (bind_int (min_speakers_param env InForm) (f_min_speakers r))
    with (f_min_speakers r) by (by destruct (f_min_speakers r)).
  replace (bind_int (max_speakers_param env InForm) (f_max_speakers r))
    with (f_max_speakers r) by (by destruct (f_max_speakers r)).
  replace (bind_str tr_response_format (f_response_format r))
    with (Some (default "json" (nonempty (f_response_format r))))
    by (by destruct (f_response_format r) as [[|]|]).
  fold (transcriptions_call r audio).
  unfold streamed, new_StreamingResponse. simpl.
  destruct (transcribe m.2 (transcriptions_call r audio)) as [[s|e] es];
    [|reflexivity].
  simpl. by destruct (encodable _).
Qed.

End Runs.

Section Serving.

Variable env : Environment.

Lemma detect_language_endpoint_run (r : DetectLanguageRequest) (p : Process) :
  detect_language_endpoint env r p
  = match asr_model p with
    | None => (Raise (NameError "asr_model"), p)
    | Some m =>
        match load_audio env (file (d_audio_file r)) (default true (d_encode r)) with
        | Raise e => (Raise e, p)
        | Ok audio =>
            (detected env (language_detection m.2 audio).1,
             extend p (ELanguageDetection m.1 audio
                         :: (EEngine <$> (language_detection m.2 audio).2)))
        end
    end.
Proof.
  unfold detect_language_endpoint, detect_language, bind, read_asr_model,
    lift_result.
  destruct (asr_model p) as [m|]; [|reflexivity].
  replace (bind_bool dl_encode (d_encode r))
    with (default true (d_encode r)) by (by destruct (d_encode r)).
  destruct (load_audio env _ _) as [audio|e]; [|reflexivity].
  rewrite call_language_detection_run.
  destruct (language_detection m.2 audio) as [[[code conf]|e] es]; simpl;
    [|reflexivity].
  unfold subscript. by destruct (LANGUAGES env !! code).
Qed.

Lemma created_app (a b : list Event) : created (a ++ b) = created a ++ created b.
Proof. apply omap_app. Qed.

Lemma receivers_app (a b : list Event) :
  receivers (a ++ b) = receivers a ++ receivers b.
Proof. apply omap_app. Qed.

Lemma created_engine (l : list EngineEvent) : created (EEngine <$> l) = [].
Proof. induction l as [|x l IH]; [done | exact IH]. Qed.

Lemma receivers_engine (l : list EngineEvent) : receivers (EEngine <$> l) = [].
Proof. induction l as [|x l IH]; [done | exact IH]. Qed.

Lemma transcribe_calls_engine (l : list EngineEvent) :
  transcribe_calls (EEngine <$> l) = [].
Proof. induction l as [|x l IH]; [done | exact IH]. Qed.

Lemma quiet_nil (p : Process) : quiet p [].
Proof. split; [done | intros id H; by apply elem_of_nil in H]. Qed.

Lemma quiet_app (p : Process) (a b : list Event) :
  quiet p a → quiet p b → quiet p (a ++ b).
Proof.
  intros [Ha1 Ha2] [Hb1 Hb2]. split.
  - by rewrite created_app, Ha1, Hb1.
  - intros id. rewrite receivers_app, elem_of_app. intros [H|H]; auto.
Qed.

Lemma quiet_call (p : Process) (m : nat * ASRModel) (e : Event)
    (l : list EngineEvent) :
  asr_model p = Some m → created [e] = [] → receivers [e] = [m.1] →
  quiet p (e :: (EEngine <$> l)).
Proof.
  intros Hm Hc Hr. change (e :: (EEngine <$> l)) with ([e] ++ (EEngine <$> l)).
  apply quiet_app.
  - split; [done|]. rewrite Hr. intros id ->%list_elem_of_singleton.
    exists m.2. by destruct m.
  - split; [apply created_engine|]. rewrite receivers_engine.
    intros id H; by apply elem_of_nil in H.
Qed.

Lemma handle_extends (req : Request) (p : Process) :
  ∃ es, (handle env req p).2 = extend p es ∧ quiet p es.
Proof.
  destruct req as [|r|r|r]; simpl.
  - exists []. by rewrite extend_nil; split; [|apply quiet_nil].
  - rewrite asr_endpoint_run.
    destruct (asr_model p) as [m|] eqn:Hm;
      [|exists []; rewrite extend_nil; split; [done|apply quiet_nil]].
    destruct (load_audio env _ _) as [audio|e];
      [|exists []; rewrite extend_nil; split; [done|apply quiet_nil]].
    eexists; split; [reflexivity|]. by apply (quiet_call p m).
  - rewrite transcriptions_endpoint_run.
    destruct (asr_model p) as [m|] eqn:Hm;
      [|exists []; rewrite extend_nil; split; [done|apply quiet_nil]].
    destruct (load_audio env _ _) as [audio|e];
      [|exists []; rewrite extend_nil; split; [done|apply quiet_nil]].
    eexists; split; [reflexivity|]. by apply (quiet_call p m).
  - rewrite detect_language_endpoint_run.
    destruct (asr_model p) as [m|] eqn:Hm;
      [|exists []; rewrite extend_nil; split; [done|apply quiet_nil]].
    destruct (load_audio env _ _) as [audio|e];
      [|exists []; rewrite extend_nil; split; [done|apply quiet_nil]].
    eexists; split; [reflexivity|]. by apply (quiet_call p m).
Qed.

Lemma serve_extends (rs : list Request) (p : Process) :
  ∃ es, (serve env rs p).2 = extend p es ∧ quiet p es
        ∧ length (serve env rs p).1 = length rs.
Proof.
  revert p. induction rs as [|req rs IH]; intros p; simpl.
  - exists []. rewrite extend_nil. split; [done|]. split; [apply quiet_nil|done].
  - destruct (handle_extends req p) as (es1 & H1 & Q1).
    destruct (handle env req p) as [x p1]; simpl in H1; subst p1.
    destruct (IH (extend p es1)) as (es2 & H2 & Q2 & L2).
    destruct (serve env rs (extend p es1)) as [xs p2]; simpl in *; subst p2.
    exists (es1 ++ es2). rewrite extend_extend. split; [done|].
    split; [|by rewrite L2]. by apply quiet_app.
Qed.

Lemma import_module_run :
  import_module env initial
  = match create_asr_model env (CONFIG env) with
    | Ok e =>
        ((load_model e).1,
         {| asr_model := Some (0, e); objects := 1;
            trace := ECreate 0 :: ELoadModel 0
                       :: (EEngine <$> (load_model e).2) |})
    | Raise x => (Raise x, initial)
    end.
Proof.
  unfold import_module, ASRModelFactory_create_asr_model, bind, lift_result.
  destruct (create_asr_model env (CONFIG env)) as [e|x]; [|reflexivity].
  simpl. rewrite call_load_model_run. reflexivity.
Qed.

End Serving.

(** ** The engine object *)

(** C3.  When the process starts (the module import succeeds) and then
    serves any sequence of requests: the factory succeeded and built exactly
    one engine object, number 0; building it is the first thing that
    happened, before any request; the global [asr_model] still refers to
    that object; every method call of the run, at start-up and from the
    three endpoints, was sent to it; and every request was answered. *)
Theorem C3_single_engine_instance (env : Environment) (rs : list Request)
    (out : list (result Response)) (p : Process) :
  run env rs = (Ok out, p) →
  ∃ e, create_asr_model env (CONFIG env) = Ok e
       ∧ asr_model p = Some (0, e)
       ∧ objects p = 1
       ∧ created (trace p) = [0]
       ∧ head (trace p) = Some (ECreate 0)
       ∧ Forall (λ id, id = 0) (receivers (trace p))
       ∧ length out = length rs.
Proof.
  unfold run. rewrite import_module_run.
  destruct (create_asr_model env (CONFIG env)) as [e|x]; [|discriminate].
  destruct (load_model e) as [[[]|x] ws]; simpl; [|discriminate].
  set (p0 := {| asr_model := Some (0, e); objects := 1;
                trace := ECreate 0 :: ELoadModel 0 :: (EEngine <$> ws) |}).
  destruct (serve_extends env rs p0) as (es & Hp & [Hc Hr] & Hlen).
  destruct (serve env rs p0) as [xs p1]; simpl in Hp, Hlen.
  intros [= <- <-]. subst p1. exists e.
  assert (Hc0 : created (trace p0) = [0]).
  { change (0 :: created (EEngine <$> ws) = [0]). by rewrite created_engine. }
  assert (Hr0 : receivers (trace p0) = [0]).
  { change (0 :: receivers (EEngine <$> ws) = [0]). by rewrite receivers_engine. }
  split; [reflexivity|]. split; [reflexivity|]. split; [reflexivity|].
  change (trace (extend p0 es)) with (trace p0 ++ es).
  split; [by rewrite created_app, Hc0, Hc|].
  split; [reflexivity|]. split; [|exact Hlen].
  rewrite receivers_app, Hr0. apply Forall_cons. split; [reflexivity|].
  apply Forall_forall. intros id Hid.
  destruct (Hr id Hid) as (e' & He'). simpl in He'. congruence.
Qed.

Lemma C3_single_engine_instance_witness :
  run (Sample.env "whisperx") Sample.requests
  = (Ok (Sample.answers "whisperx"), Sample.served "whisperx")
  ∧ created (trace (Sample.served "whisperx")) = [0]
  ∧ Forall (λ id, id = 0) (receivers (trace (Sample.served "whisperx"))).
Proof.
  assert (H : run (Sample.env "whisperx") Sample.requests
              = (Ok (Sample.answers "whisperx"), Sample.served "whisperx"))
    by (vm_compute; reflexivity).
  split; [exact H|].
  destruct (C3_single_engine_instance _ _ _ _ H)
    as (e & _ & _ & _ & Hc & _ & Hr & _).
  split; [exact Hc | exact Hr].
Defined.

(** ** What reaches the engine *)

Section Forwarding.

Variable env : Environment.

Lemma transcribe_calls_call (id : nat) (a : TranscribeArgs)
    (l : list EngineEvent) :
  transcribe_calls (ETranscribe id a :: (EEngine <$> l)) = [(id, a)].
Proof.
  change ((id, a) :: transcribe_calls (EEngine <$> l) = [(id, a)]).
  by rewrite transcribe_calls_engine.
Qed.

(** The [transcribe] calls a [POST /asr] request gives rise to: none when
    the upload cannot be decoded, otherwise one, with the arguments of
    [asr_call]. *)
Lemma asr_endpoint_calls (r : AsrRequest) (p : Process) :
  transcribe_calls (since p (asr_endpoint env r p).2)
  = match asr_model p,
          load_audio env (file (a_audio_file r)) (default true (a_encode r))
    with
    | Some m, Ok audio => [(m.1, asr_call r audio)]
    | _, _ => []
    end.
Proof.
  rewrite asr_endpoint_run.
  destruct (asr_model p) as [m|];
    [|by unfold since; simpl; rewrite drop_all].
  destruct (load_audio env _ _) as [audio|e];
    [|by unfold since; simpl; rewrite drop_all].
  simpl. rewrite since_extend. apply transcribe_calls_call.
Qed.

Lemma transcriptions_endpoint_calls (r : TranscriptionsRequest) (p : Process) :
  transcribe_calls (since p (transcriptions_endpoint env r p).2)
  = match asr_model p,
          load_audio env (file (f_file r)) (default true (f_encode r))
    with
    | Some m, Ok audio => [(m.1, transcriptions_call r audio)]
    | _, _ => []
    end.
Proof.
  rewrite transcriptions_endpoint_run.
  destruct (asr_model p) as [m|];
    [|by unfold since; simpl; rewrite drop_all].
  destruct (load_audio env _ _) as [audio|e];
    [|by unfold since; simpl; rewrite drop_all].
  simpl. rewrite since_extend. apply transcribe_calls_call.
Qed.

Lemma asr_call_forwarded (r : AsrRequest) (audio : Waveform) :
  forwarded (asr_optional r) (asr_call r audio).
Proof. by repeat split. Qed.

Lemma transcriptions_call_forwarded (r : TranscriptionsRequest)
    (audio : Waveform) :
  forwarded (transcriptions_optional r) (transcriptions_call r audio).
Proof. by repeat split. Qed.

(** Which parameters the generated documentation lists. *)
Lemma documented_cons (q : Param) (ps : list Param) :
  documented (q :: ps)
  = if listed q then p_name q :: documented ps else documented ps.
Proof.
  unfold documented. rewrite filter_cons.
  destruct (listed q); by case_decide.
Qed.

Ltac listed_here :=
  solve [ repeat first [ apply list_elem_of_here | apply list_elem_of_further ] ].

Ltac unlisted H :=
  repeat (apply elem_of_cons in H; destruct H as [H|H]; [discriminate H|]);
  by apply elem_of_nil in H.

Lemma engine_is_true (name : string) :
  engine_is env name = true ↔ ASR_ENGINE (CONFIG env) = name.
Proof. unfold engine_is. apply bool_decide_eq_true. Qed.

Lemma token_set :
  negb (bool_decide (HF_TOKEN (CONFIG env) = EmptyString)) = true
  ↔ HF_TOKEN (CONFIG env) ≠ EmptyString.
Proof. rewrite negb_true_iff, bool_decide_eq_false. reflexivity. Qed.

(** On [POST /asr], whose optional parameters are query parameters, the
    declaration decides. *)
Lemma exposure_asr :
  ("vad_filter" ∈ documented (asr_params env)
     ↔ ASR_ENGINE (CONFIG env) = "faster_whisper")
  ∧ ("word_timestamps" ∈ documented (asr_params env)
     ↔ ASR_ENGINE (CONFIG env) = "faster_whisper")
  ∧ ("diarize" ∈ documented (asr_params env)
     ↔ ASR_ENGINE (CONFIG env) = "whisperx"
       ∧ HF_TOKEN (CONFIG env) ≠ EmptyString)
  ∧ ("min_speakers" ∈ documented (asr_params env)
     ↔ ASR_ENGINE (CONFIG env) = "whisperx")
  ∧ ("max_speakers" ∈ documented (asr_params env)
     ↔ ASR_ENGINE (CONFIG env) = "whisperx").
Proof.
  pose proof (engine_is_true "faster_whisper") as Hf.
  pose proof (engine_is_true "whisperx") as Hx.
  pose proof token_set as Ht.
  unfold asr_params; rewrite !documented_cons; cbn;
    destruct (engine_is env "faster_whisper");
    destruct (engine_is env "whisperx");
    destruct (negb (bool_decide (HF_TOKEN (CONFIG env) = EmptyString)));
    cbn; rewrite <- Hf, <- Hx, <- Ht;
    (split; [|split; [|split; [|split]]]);
    (split; intros H);
    first [ reflexivity | by split | discriminate H | by destruct H
          | listed_here | unlisted H ].
Qed.

(** On [POST /audio/transcriptions] the same declarations are made on form
    fields: the condition is declared ... *)
Lemma declared_exposure (src : ParamSource) :
  (p_include_in_schema (vad_filter_param env src) = true
     ↔ ASR_ENGINE (CONFIG env) = "faster_whisper")
  ∧ (p_include_in_schema (word_timestamps_param env src) = true
     ↔ ASR_ENGINE (CONFIG env) = "faster_whisper")
  ∧ (p_include_in_schema (diarize_param env src) = true
     ↔ ASR_ENGINE (CONFIG env) = "whisperx"
       ∧ HF_TOKEN (CONFIG env) ≠ EmptyString)
  ∧ (p_include_in_schema (min_speakers_param env src) = true
     ↔ ASR_ENGINE (CONFIG env) = "whisperx")
  ∧ (p_include_in_schema (max_speakers_param env src) = true
     ↔ ASR_ENGINE (CONFIG env) = "whisperx").
Proof.
  pose proof (engine_is_true "faster_whisper") as Hf.
  pose proof (engine_is_true "whisperx") as Hx.
  pose proof token_set as Ht.
  cbn.
  destruct (engine_is env "faster_whisper");
    destruct (engine_is env "whisperx");
    destruct (negb (bool_decide (HF_TOKEN (CONFIG env) = EmptyString)));
    cbn; rewrite <- Hf, <- Hx, <- Ht;
    (split; [|split; [|split; [|split]]]);
    (split; intros H);
    first [ reflexivity | by split | discriminate H | by destruct H ].
Qed.

(** ... and has no effect: every form field is listed. *)
Lemma transcriptions_documented :
  documented (transcriptions_params env)
  = [ "file"; "encode"; "language"; "prompt"; "vad_filter";
      "word_timestamps"; "diarize"; "min_speakers"; "max_speakers";
      "model"; "response_format" ].
Proof. reflexivity. Qed.

End Forwarding.

(** C1, as the code has it.  In the generated documentation of [POST /asr],
    [vad_filter] and [word_timestamps] are listed iff the engine is
    [faster_whisper], [diarize] iff the engine is [whisperx] and
    [HF_TOKEN] is not empty, [min_speakers] and [max_speakers] iff the
    engine is [whisperx].  [POST /audio/transcriptions] declares the five
    fields with the same conditions, but as form fields, for which the
    condition is not consulted: its documentation lists all five under
    every configuration. *)
Theorem C1_optional_parameters (env : Environment) :
  (("vad_filter" ∈ documented (asr_params env)
      ↔ ASR_ENGINE (CONFIG env) = "faster_whisper")
   ∧ ("word_timestamps" ∈ documented (asr_params env)
      ↔ ASR_ENGINE (CONFIG env) = "faster_whisper")
   ∧ ("diarize" ∈ documented (asr_params env)
      ↔ ASR_ENGINE (CONFIG env) = "whisperx"
        ∧ HF_TOKEN (CONFIG env) ≠ EmptyString)
   ∧ ("min_speakers" ∈ documented (asr_params env)
      ↔ ASR_ENGINE (CONFIG env) = "whisperx")
   ∧ ("max_speakers" ∈ documented (asr_params env)
      ↔ ASR_ENGINE (CONFIG env) = "whisperx"))
  ∧ ((p_include_in_schema (vad_filter_param env InForm) = true
        ↔ ASR_ENGINE (CONFIG env) = "faster_whisper")
     ∧ (p_include_in_schema (word_timestamps_param env InForm) = true
        ↔ ASR_ENGINE (CONFIG env) = "faster_whisper")
     ∧ (p_include_in_schema (diarize_param env InForm) = true
        ↔ ASR_ENGINE (CONFIG env) = "whisperx"
          ∧ HF_TOKEN (CONFIG env) ≠ EmptyString)
     ∧ (p_include_in_schema (min_speakers_param env InForm) = true
        ↔ ASR_ENGINE (CONFIG env) = "whisperx")
     ∧ (p_include_in_schema (max_speakers_param env InForm) = true
        ↔ ASR_ENGINE (CONFIG env) = "whisperx"))
  ∧ Forall (λ name, name ∈ documented (transcriptions_params env))
      [ "vad_filter"; "word_timestamps"; "diarize"; "min_speakers";
        "max_speakers" ].
Proof.
  split; [apply exposure_asr|]. split; [apply declared_exposure|].
  rewrite transcriptions_documented.
  repeat (apply Forall_cons; split;
          [repeat first [ apply list_elem_of_here
                        | apply list_elem_of_further ]|]).
  apply Forall_nil_2.
Qed.

(** C1 at the reference engine: none of the five fields is meant to be
    documented, [POST /asr] documents none, [POST /audio/transcriptions]
    documents all of them. *)
Example C1_reference_engine :
  p_include_in_schema (vad_filter_param (Sample.env "openai_whisper") InForm)
  = false
  ∧ documented (asr_params (Sample.env "openai_whisper"))
    = [ "audio_file"; "encode"; "task"; "language"; "initial_prompt";
        "output" ]
  ∧ documented (transcriptions_params (Sample.env "openai_whisper"))
    = [ "file"; "encode"; "language"; "prompt"; "vad_filter";
        "word_timestamps"; "diarize"; "min_speakers"; "max_speakers";
        "model"; "response_format" ].
Proof. repeat split; reflexivity. Qed.

(** X14.  Whatever engine is configured, a [POST /asr] and a
    [POST /audio/transcriptions] request whose upload decodes each lead to
    one [transcribe] call on the engine object, and that call carries the
    request's [vad_filter], [word_timestamps], [diarize], [min_speakers] and
    [max_speakers]: the value sent, [False] for a flag left out, [None] for
    a bound left out. *)
Theorem optional_parameters_forwarded (env : Environment) (ra : AsrRequest)
    (rt : TranscriptionsRequest) (p : Process) (m : nat * ASRModel)
    (wa wt : Waveform) :
  asr_model p = Some m →
  load_audio env (file (a_audio_file ra)) (default true (a_encode ra)) = Ok wa →
  load_audio env (file (f_file rt)) (default true (f_encode rt)) = Ok wt →
  (∃ a, transcribe_calls (since p (asr_endpoint env ra p).2) = [(m.1, a)]
        ∧ forwarded (asr_optional ra) a)
  ∧ (∃ a, transcribe_calls (since p (transcriptions_endpoint env rt p).2)
          = [(m.1, a)]
          ∧ forwarded (transcriptions_optional rt) a).
Proof.
  intros Hm Ha Ht. split.
  - exists (asr_call ra wa). rewrite asr_endpoint_calls, Hm, Ha.
    split; [reflexivity | apply asr_call_forwarded].
  - exists (transcriptions_call rt wt).
    rewrite transcriptions_endpoint_calls, Hm, Ht.
    split; [reflexivity | apply transcriptions_call_forwarded].
Qed.

Lemma optional_parameters_forwarded_witness :
  asr_model (Sample.started "openai_whisper")
  = Some (0, Engine.engine Engine.Reference Sample.model)
  ∧ load_audio (Sample.env "openai_whisper") (file Sample.upload) false
    = Ok [1; 2; 3]%Z
  ∧ (∃ a, transcribe_calls
            (since (Sample.started "openai_whisper")
               (asr_endpoint (Sample.env "openai_whisper")
                  Sample.full_asr_request
                  (Sample.started "openai_whisper")).2) = [(0, a)]
          ∧ forwarded (asr_optional Sample.full_asr_request) a).
Proof.
  assert (Hm : asr_model (Sample.started "openai_whisper")
               = Some (0, Engine.engine Engine.Reference Sample.model))
    by (vm_compute; reflexivity).
  assert (Hw : load_audio (Sample.env "openai_whisper") (file Sample.upload)
                 false = Ok [1; 2; 3]%Z)
    by (vm_compute; reflexivity).
  destruct (optional_parameters_forwarded (Sample.env "openai_whisper")
              Sample.full_asr_request Sample.full_transcriptions_request
              (Sample.started "openai_whisper") _ _ _ Hm Hw Hw)
    as (Ha & _).
  split; [exact Hm|]. split; [exact Hw|]. exact Ha.
Defined.


(** A form sent with empty strings: the engine is called with no language,
    no prompt and the format [json]. *)
Example transcriptions_empty_fields :
  transcribe_calls
    (since (Sample.started "faster_whisper")
       (transcriptions_endpoint (Sample.env "faster_whisper")
          Sample2.empty_fields_request (Sample.started "faster_whisper")).2)
  = [(0, {| t_audio := [1; 2; 3]%Z;
            t_task := Some "transcribe";
            t_language := None;
            t_initial_prompt := None;
            t_vad_filter := Some false;
            t_word_timestamps := false;
            t_options := {| diarize := false; min_speakers := None;
                            max_speakers := None |};
            t_output := Some "json" |})].
Proof. vm_compute. reflexivity. Qed.

(** C9.  [POST /audio/transcriptions] declares a form field [model] with
    default ["whisper-1"], and the field reaches nothing: two requests that
    differ only in [model] run identically (same [transcribe] call with the
    same arguments, same answer, same trace). *)
Theorem C9_model_field_ignored (env : Environment) (r : TranscriptionsRequest)
    (m1 m2 : option string) (p : Process) :
  tr_model ∈ transcriptions_params env
  ∧ p_default tr_model = PStr "whisper-1"
  ∧ transcriptions_endpoint env (with_model m1 r) p
    = transcriptions_endpoint env (with_model m2 r) p.
Proof.
  split; [|split].
  - unfold transcriptions_params. do 9 apply list_elem_of_further.
    apply list_elem_of_here.
  - reflexivity.
  - rewrite !transcriptions_endpoint_run. reflexivity.
Qed.

(** C10, as the code has it.  Left out of the request, [output] of
    [POST /asr] is ["txt"] and [response_format] of
    [POST /audio/transcriptions] is ["json"]; both parameters are declared
    with the same [enum] of five values: txt, vtt, srt, tsv, json.  The
    [enum] documents the values and restricts nothing: the engine is called
    with whatever format the request names. *)
Theorem C10_format_defaults (env : Environment) (ra : AsrRequest)
    (rt : TranscriptionsRequest) (p : Process) (m : nat * ASRModel)
    (wa wt : Waveform) :
  asr_model p = Some m →
  load_audio env (file (a_audio_file ra)) (default true (a_encode ra)) = Ok wa →
  load_audio env (file (f_file rt)) (default true (f_encode rt)) = Ok wt →
  asr_output ∈ asr_params env
  ∧ tr_response_format ∈ transcriptions_params env
  ∧ p_default asr_output = PStr "txt"
  ∧ p_default tr_response_format = PStr "json"
  ∧ p_enum asr_output = Some ["txt"; "vtt"; "srt"; "tsv"; "json"]
  ∧ p_enum tr_response_format = p_enum asr_output
  ∧ (∃ a, transcribe_calls (since p (asr_endpoint env ra p).2) = [(m.1, a)]
          ∧ t_output a = Some (default "txt" (a_output ra)))
  ∧ (∃ a, transcribe_calls (since p (transcriptions_endpoint env rt p).2)
          = [(m.1, a)]
          ∧ t_output a
            = Some (default "json" (nonempty (f_response_format rt)))).
Proof.
  intros Hm Ha Ht.
  split. { unfold asr_params. do 10 apply list_elem_of_further.
           apply list_elem_of_here. }
  split. { unfold transcriptions_params. do 10 apply list_elem_of_further.
           apply list_elem_of_here. }
  do 4 (split; [reflexivity|]).
  split.
  - exists (asr_call ra wa). by rewrite asr_endpoint_calls, Hm, Ha.
  - exists (transcriptions_call rt wt).
    by rewrite transcriptions_endpoint_calls, Hm, Ht.
Qed.

Lemma C10_format_defaults_witness :
  asr_model (Sample.started "faster_whisper")
  = Some (0, Engine.engine Engine.Optimized Sample.model)
  ∧ load_audio (Sample.env "faster_whisper") (file Sample.upload) true
    = Ok [1; 2; 3]%Z
  ∧ (∃ a, transcribe_calls
            (since (Sample.started "faster_whisper")
               (asr_endpoint (Sample.env "faster_whisper")
                  (Sample.asr_request Sample.upload)
                  (Sample.started "faster_whisper")).2) = [(0, a)]
          ∧ t_output a = Some "txt")
  ∧ (∃ a, transcribe_calls
            (since (Sample.started "faster_whisper")
               (transcriptions_endpoint (Sample.env "faster_whisper")
                  (Sample.transcriptions_request Sample.upload)
                  (Sample.started "faster_whisper")).2) = [(0, a)]
          ∧ t_output a = Some "json").
Proof.
  assert (Hm : asr_model (Sample.started "faster_whisper")
               = Some (0, Engine.engine Engine.Optimized Sample.model))
    by (vm_compute; reflexivity).
  assert (Hw : load_audio (Sample.env "faster_whisper") (file Sample.upload)
                 true = Ok [1; 2; 3]%Z)
    by (vm_compute; reflexivity).
  destruct (C10_format_defaults (Sample.env "faster_whisper")
              (Sample.asr_request Sample.upload)
              (Sample.transcriptions_request Sample.upload)
              (Sample.started "faster_whisper") _ _ _ Hm Hw Hw)
    as (_ & _ & _ & _ & _ & _ & Ha & Ht).
  split; [exact Hm|]. split; [exact Hw|]. split; [exact Ha | exact Ht].
Defined.

(** C10 as stated fails: [POST /asr] with [output=xyz], which is none of the
    five values, is answered and the engine is called with that format. *)
Lemma C10_counterexample :
  p_enum asr_output = Some ["txt"; "vtt"; "srt"; "tsv"; "json"]
  ∧ ¬ "xyz" ∈ ["txt"; "vtt"; "srt"; "tsv"; "json"]
  ∧ a_output Sample2.odd_format_request = Some "xyz"
  ∧ is_ok (asr_endpoint (Sample.env "faster_whisper")
             Sample2.odd_format_request
             (Sample.started "faster_whisper")).1 = true
  ∧ t_output <$>
      (snd <$>
         transcribe_calls
           (since (Sample.started "faster_whisper")
              (asr_endpoint (Sample.env "faster_whisper")
                 Sample2.odd_format_request
                 (Sample.started "faster_whisper")).2))
    = [Some "xyz"].
Proof.
  split; [reflexivity|]. split.
  { intros H.
    repeat (apply elem_of_cons in H; destruct H as [H|H]; [discriminate H|]).
    by apply elem_of_nil in H. }
  split; [reflexivity|]. split; vm_compute; reflexivity.
Qed.

(** ** The answers *)

Example quote_plain : Urllib.quote "sample.mp3" = "sample.mp3".
Proof. reflexivity. Qed.

Example quote_space :
  Urllib.quote "my file (1).wav" = "my%20file%20%281%29.wav".
Proof. reflexivity. Qed.

Example quote_slash : Urllib.quote "a/b?c=d" = "a/b%3Fc%3Dd".
Proof. reflexivity. Qed.

Lemma all_chars_app (f : ascii → bool) (s t : string) :
  all_chars f (s +:+ t) = all_chars f s && all_chars f t.
Proof.
  induction s as [|c s IH]; [reflexivity|].
  change (f c && all_chars f (s +:+ t) = f c && all_chars f s && all_chars f t).
  by rewrite IH, andb_assoc.
Qed.

Lemma quote_byte_url_safe (c : ascii) :
  all_chars url_char (Urllib.quote_byte c) = true.
Proof. destruct c as [[] [] [] [] [] [] [] []]; reflexivity. Qed.

(** A quoted name consists of unreserved characters, slashes and percent
    escapes only. *)
Lemma quote_url_safe (s : string) : all_chars url_char (Urllib.quote s) = true.
Proof.
  induction s as [|c s IH]; [reflexivity|].
  change (all_chars url_char (Urllib.quote_byte c +:+ Urllib.quote s) = true).
  by rewrite all_chars_app, quote_byte_url_safe, IH.
Qed.

Lemma response_headers_dom (env : Environment) (name : string)
    (format : option string) :
  dom (response_headers env name format)
  = ({["Asr-Engine"; "Content-Disposition"]} : gset string).
Proof.
  unfold response_headers. rewrite !dom_insert_L, dom_empty_L. set_solver.
Qed.

(** C4.  A [POST /asr] request that succeeds is answered by a streaming
    response whose body is what the engine's [transcribe] returned, with
    media type [text/plain] and exactly two headers: [Asr-Engine], the
    configured engine name, and [Content-Disposition], which reads
    [attachment; filename="N.F"] with [N] the percent-encoded name of the
    upload and [F] the requested output format ([txt] when none is
    requested). *)
Theorem C4_asr_response (env : Environment) (r : AsrRequest)
    (p p' : Process) (resp : Response) :
  asr_endpoint env r p = (Ok resp, p') →
  ∃ body headers,
    resp = StreamingResponse body "text/plain" headers
    ∧ dom headers = ({["Asr-Engine"; "Content-Disposition"]} : gset string)
    ∧ headers !! "Asr-Engine" = Some (ASR_ENGINE (CONFIG env))
    ∧ headers !! "Content-Disposition"
      = Some ("attachment; filename=" +:+ Str.dquote
                +:+ Urllib.quote (filename (a_audio_file r)) +:+ "."
                +:+ default "txt" (a_output r) +:+ Str.dquote)
    ∧ all_chars url_char (Urllib.quote (filename (a_audio_file r))) = true
    ∧ ∃ m audio,
        asr_model p = Some m
        ∧ load_audio env (file (a_audio_file r)) (default true (a_encode r))
          = Ok audio
        ∧ (transcribe m.2 (asr_call r audio)).1 = Ok body.
Proof.
  rewrite asr_endpoint_run.
  destruct (asr_model p) as [m|]; [|discriminate].
  destruct (load_audio env _ _) as [audio|e] eqn:Ha; [|discriminate].
  cbv zeta. destruct (transcribe m.2 (asr_call r audio)).1 as [body|e] eqn:Hb;
    [|discriminate].
  unfold streamed. destruct (encodable _); [|discriminate].
  intros [= <- _]. eexists _, _. split; [reflexivity|].
  split; [apply response_headers_dom|].
  split; [reflexivity|]. split; [reflexivity|].
  split; [apply quote_url_safe|]. by exists m, audio.
Qed.

Lemma C4_asr_response_witness :
  (asr_endpoint (Sample.env "whisperx") Sample.full_asr_request
     (Sample.started "whisperx")).1
  = Ok (StreamingResponse ["translate"; " speech only: "; "hello world"]
          "text/plain"
          (response_headers (Sample.env "whisperx") "my talk.wav" (Some "srt")))
  ∧ response_headers (Sample.env "whisperx") "my talk.wav" (Some "srt")
      !! "Content-Disposition"
    = Some ("attachment; filename=" +:+ Str.dquote +:+ "my%20talk.wav.srt"
              +:+ Str.dquote).
Proof.
  assert (H : asr_endpoint (Sample.env "whisperx") Sample.full_asr_request
                (Sample.started "whisperx")
              = (Ok (StreamingResponse
                       ["translate"; " speech only: "; "hello world"]
                       "text/plain"
                       (response_headers (Sample.env "whisperx")
                          "my talk.wav" (Some "srt"))),
                 (asr_endpoint (Sample.env "whisperx") Sample.full_asr_request
                    (Sample.started "whisperx")).2))
    by (vm_compute; reflexivity).
  split; [by rewrite H|].
  destruct (C4_asr_response _ _ _ _ _ H) as (body & headers & Hr & _ & _ & Hcd & _).
  injection Hr as _ <-. exact Hcd.
Defined.

(** ** Errors *)

(** C5.  With the audio loader of the design document, a request to any of
    the three endpoints whose upload is empty ends with [InvalidAudioError],
    which surfaces as HTTP 400; the handler returns no response (so no 200),
    and nothing is sent to the engine. *)
Theorem C5_empty_upload (env : Environment)
    (decoder : list Byte.byte → bool → option Waveform)
    (req : Request) (f : UploadFile) (p : Process) (m : nat * ASRModel) :
  load_audio env = load_audio_spec decoder →
  asr_model p = Some m →
  upload_of req = Some f →
  file f = [] →
  (handle env req p).1 = Raise InvalidAudioError
  ∧ http_status (handle env req p).1 = 400
  ∧ is_ok (handle env req p).1 = false
  ∧ (handle env req p).2 = p.
Proof.
  intros Hl Hm Hf He.
  assert (Hrun : handle env req p = (Raise InvalidAudioError, p)).
  { destruct req as [|r|r|r]; simpl in Hf; [discriminate|..];
      injection Hf as <-; simpl.
    - by rewrite asr_endpoint_run, Hm, Hl, He.
    - by rewrite transcriptions_endpoint_run, Hm, Hl, He.
    - by rewrite detect_language_endpoint_run, Hm, Hl, He. }
  by rewrite Hrun.
Qed.

Lemma C5_empty_upload_witness :
  load_audio (Sample.env "faster_whisper") = load_audio_spec Sample.decoder
  ∧ asr_model (Sample.started "faster_whisper")
    = Some (0, Engine.engine Engine.Optimized Sample.model)
  ∧ file Sample.empty_upload = []
  ∧ http_status
      (handle (Sample.env "faster_whisper")
         (PostDetectLanguage (Sample.detect_request Sample.empty_upload))
         (Sample.started "faster_whisper")).1 = 400.
Proof.
  assert (Hm : asr_model (Sample.started "faster_whisper")
               = Some (0, Engine.engine Engine.Optimized Sample.model))
    by (vm_compute; reflexivity).
  split; [reflexivity|]. split; [exact Hm|]. split; [reflexivity|].
  apply (C5_empty_upload (Sample.env "faster_whisper") Sample.decoder
           (PostDetectLanguage (Sample.detect_request Sample.empty_upload))
           Sample.empty_upload (Sample.started "faster_whisper") _
           eq_refl Hm eq_refl eq_refl).
Defined.

(** The engines of the design document reject an empty waveform as well,
    should the loader let one through. *)
Lemma empty_waveform_rejected (env : Environment) (req : Request)
    (f : UploadFile) (p : Process) (id : nat) (v : Engine.Variant)
    (model : Engine.Model) :
  asr_model p = Some (id, Engine.engine v model) →
  upload_of req = Some f →
  load_audio env (file f) (encode_of req) = Ok [] →
  (handle env req p).1 = Raise InvalidAudioError.
Proof.
  intros Hm Hf Ha.
  destruct req as [|r|r|r]; simpl in Hf, Ha; [discriminate|..];
    injection Hf as <-; simpl.
  - by rewrite asr_endpoint_run, Hm, Ha.
  - by rewrite transcriptions_endpoint_run, Hm, Ha.
  - by rewrite detect_language_endpoint_run, Hm, Ha.
Qed.

(** The diarization-augmented engine turns contradictory bounds down
    without running the model. *)
Lemma contradictory_bounds_rejected (model : Engine.Model)
    (a : TranscribeArgs) (x : Z) (w : Waveform) (lo hi : Z) :
  t_audio a = x :: w →
  diarize (t_options a) = true →
  min_speakers (t_options a) = Some lo →
  max_speakers (t_options a) = Some hi →
  (hi < lo)%Z →
  Engine.transcribe Engine.DiarizationAugmented model a
  = (Raise InvalidOptionError, []).
Proof.
  intros Ha Hd Hlo Hhi Hlt. apply Z.ltb_lt in Hlt.
  unfold Engine.transcribe, Engine.contradictory.
  rewrite Ha, Hd, Hlo, Hhi, Hlt. reflexivity.
Qed.

(** C6, as the code has it.  On the diarization-augmented engine, a
    [POST /asr] or [POST /audio/transcriptions] request that asks for
    diarization with both bounds given and [min_speakers > max_speakers],
    and whose upload decodes to a non-empty waveform, ends with
    [InvalidOptionError]: the engine is called once and the model is not
    run. *)
Theorem C6_contradictory_bounds (env : Environment) (req : Request)
    (f : UploadFile) (o : DiarizeOptions) (lo hi : Z) (p : Process)
    (id : nat) (model : Engine.Model) (x : Z) (w : Waveform) :
  asr_model p
  = Some (id, Engine.engine Engine.DiarizationAugmented model) →
  upload_of req = Some f →
  diarization_of req = Some o →
  diarize o = true →
  min_speakers o = Some lo →
  max_speakers o = Some hi →
  (hi < lo)%Z →
  load_audio env (file f) (encode_of req) = Ok (x :: w) →
  (handle env req p).1 = Raise InvalidOptionError
  ∧ length (transcribe_calls (since p (handle env req p).2)) = 1
  ∧ inferences (since p (handle env req p).2) = 0.
Proof.
  intros Hm Hf Ho Hd Hlo Hhi Hlt Ha.
  destruct req as [|r|r|r]; simpl in Hf, Ho, Ha; try discriminate;
    injection Hf as <-; injection Ho as <-; simpl in Hd, Hlo, Hhi; simpl.
  - rewrite asr_endpoint_run, Hm, Ha.
    cbn [fst snd transcribe Engine.engine].
    rewrite (contradictory_bounds_rejected model (asr_call r (x :: w)) x w lo hi)
      by done.
    cbn [fst snd]. rewrite since_extend. by repeat split.
  - rewrite transcriptions_endpoint_run, Hm, Ha.
    cbn [fst snd transcribe Engine.engine].
    rewrite (contradictory_bounds_rejected model
               (transcriptions_call r (x :: w)) x w lo hi) by done.
    cbn [fst snd]. rewrite since_extend. by repeat split.
Qed.

Lemma C6_contradictory_bounds_witness :
  asr_model (Sample.started "whisperx")
  = Some (0, Engine.engine Engine.DiarizationAugmented Sample.model)
  ∧ load_audio (Sample.env "whisperx") (file Sample.upload) true
    = Ok [1; 2; 3]%Z
  ∧ (2 < 3)%Z
  ∧ (handle (Sample.env "whisperx")
       (PostAsr (Sample.contradictory_request Sample.upload))
       (Sample.started "whisperx")).1 = Raise InvalidOptionError.
Proof.
  assert (Hm : asr_model (Sample.started "whisperx")
               = Some (0, Engine.engine Engine.DiarizationAugmented Sample.model))
    by (vm_compute; reflexivity).
  assert (Hw : load_audio (Sample.env "whisperx") (file Sample.upload) true
               = Ok [1; 2; 3]%Z)
    by (vm_compute; reflexivity).
  split; [exact Hm|]. split; [exact Hw|]. split; [lia|].
  apply (C6_contradictory_bounds (Sample.env "whisperx")
           (PostAsr (Sample.contradictory_request Sample.upload))
           Sample.upload _ 3%Z 2%Z (Sample.started "whisperx") 0 Sample.model
           1%Z [2; 3]%Z Hm eq_refl eq_refl eq_refl eq_refl eq_refl
           ltac:(lia) Hw).
Defined.

(** C6 as stated fails twice over, for a request for diarization with
    [min_speakers=3], [max_speakers=2].  On the diarization-augmented
    engine with an empty upload it ends with [InvalidAudioError], not
    [InvalidOptionError], since the handler loads the audio before it calls
    the engine.  On the reference engine, which does not diarize, the
    bounds are ignored: with a valid upload the request succeeds and the
    model runs. *)
Lemma C6_counterexample :
  (asr_model (Sample.started "whisperx")
   = Some (0, Engine.engine Engine.DiarizationAugmented Sample.model)
   ∧ diarization_of (PostAsr (Sample.contradictory_request Sample.empty_upload))
     = Some {| diarize := true; min_speakers := Some 3%Z;
               max_speakers := Some 2%Z |}
   ∧ (handle (Sample.env "whisperx")
        (PostAsr (Sample.contradictory_request Sample.empty_upload))
        (Sample.started "whisperx")).1 = Raise InvalidAudioError
   ∧ (handle (Sample.env "whisperx")
        (PostAsr (Sample.contradictory_request Sample.empty_upload))
        (Sample.started "whisperx")).1 ≠ Raise InvalidOptionError)
  ∧ (asr_model (Sample.started "openai_whisper")
     = Some (0, Engine.engine Engine.Reference Sample.model)
     ∧ diarization_of (PostAsr (Sample.contradictory_request Sample.upload))
       = Some {| diarize := true; min_speakers := Some 3%Z;
                 max_speakers := Some 2%Z |}
     ∧ load_audio (Sample.env "openai_whisper") (file Sample.upload) true
       = Ok [1; 2; 3]%Z
     ∧ is_ok (handle (Sample.env "openai_whisper")
                (PostAsr (Sample.contradictory_request Sample.upload))
                (Sample.started "openai_whisper")).1 = true
     ∧ inferences
         (since (Sample.started "openai_whisper")
            (handle (Sample.env "openai_whisper")
               (PostAsr (Sample.contradictory_request Sample.upload))
               (Sample.started "openai_whisper")).2) = 1).
Proof.
  assert (H : (handle (Sample.env "whisperx")
                 (PostAsr (Sample.contradictory_request Sample.empty_upload))
                 (Sample.started "whisperx")).1 = Raise InvalidAudioError)
    by (vm_compute; reflexivity).
  split.
  - split; [vm_compute; reflexivity|]. split; [reflexivity|].
    split; [exact H|]. rewrite H. discriminate.
  - repeat split; vm_compute; reflexivity.
Qed.

(** ** Capability gating *)

(** The reference variant hands the same options to the model whatever
    [vad_filter] says. *)
Lemma gate_reference_vad (r : AsrRequest) (v1 v2 : option bool)
    (audio : Waveform) :
  Engine.gate (Engine.capabilities Engine.Reference)
    (asr_call (with_vad_filter v1 r) audio)
  = Engine.gate (Engine.capabilities Engine.Reference)
      (asr_call (with_vad_filter v2 r) audio).
Proof. reflexivity. Qed.

(** C7, as the code has it.  On the reference engine, two [POST /asr]
    requests that differ only in [vad_filter] end the same way: both succeed
    with the same response, body and headers, or both fail with the same
    exception; so the request with [vad_filter=true] succeeds whenever the
    one with [vad_filter=false] does.  The engine itself does the same for
    both: same result, same use of the model. *)
Theorem C7_vad_filter_on_reference (env : Environment) (r : AsrRequest)
    (v1 v2 : option bool) (p : Process) (id : nat) (model : Engine.Model) :
  asr_model p = Some (id, Engine.engine Engine.Reference model) →
  (asr_endpoint env (with_vad_filter v1 r) p).1
  = (asr_endpoint env (with_vad_filter v2 r) p).1
  ∧ (∀ resp,
       (asr_endpoint env (with_vad_filter v2 r) p).1 = Ok resp →
       (asr_endpoint env (with_vad_filter v1 r) p).1 = Ok resp)
  ∧ ∀ audio,
      transcribe (Engine.engine Engine.Reference model)
        (asr_call (with_vad_filter v1 r) audio)
      = transcribe (Engine.engine Engine.Reference model)
          (asr_call (with_vad_filter v2 r) audio).
Proof.
  intros Hm.
  assert (He : ∀ audio,
             transcribe (Engine.engine Engine.Reference model)
               (asr_call (with_vad_filter v1 r) audio)
             = transcribe (Engine.engine Engine.Reference model)
                 (asr_call (with_vad_filter v2 r) audio)).
  { intros audio. cbn [transcribe Engine.engine]. unfold Engine.transcribe.
    cbn [t_audio asr_call]. destruct audio as [|x w]; [reflexivity|].
    cbn [Engine.capabilities Engine.cap_diarization andb].
    by rewrite (gate_reference_vad r v1 v2). }
  assert (Hr : (asr_endpoint env (with_vad_filter v1 r) p).1
               = (asr_endpoint env (with_vad_filter v2 r) p).1).
  { rewrite !asr_endpoint_run, Hm.
    change (file (a_audio_file (with_vad_filter v1 r)))
      with (file (a_audio_file r)).
    change (file (a_audio_file (with_vad_filter v2 r)))
      with (file (a_audio_file r)).
    change (a_encode (with_vad_filter v1 r)) with (a_encode r).
    change (a_encode (with_vad_filter v2 r)) with (a_encode r).
    destruct (load_audio env _ _) as [audio|e]; [|reflexivity].
    cbn [fst snd]. by rewrite (He audio). }
  split; [exact Hr|]. split; [|exact He].
  intros resp H. by rewrite Hr.
Qed.

Lemma C7_vad_filter_on_reference_witness :
  asr_model (Sample.started "openai_whisper")
  = Some (0, Engine.engine Engine.Reference Sample.model)
  ∧ (asr_endpoint (Sample.env "openai_whisper")
       (with_vad_filter (Some true) (Sample.asr_request Sample.upload))
       (Sample.started "openai_whisper")).1
    = (asr_endpoint (Sample.env "openai_whisper")
         (with_vad_filter (Some false) (Sample.asr_request Sample.upload))
         (Sample.started "openai_whisper")).1
  ∧ is_ok (asr_endpoint (Sample.env "openai_whisper")
             (with_vad_filter (Some true) (Sample.asr_request Sample.upload))
             (Sample.started "openai_whisper")).1 = true.
Proof.
  assert (Hm : asr_model (Sample.started "openai_whisper")
               = Some (0, Engine.engine Engine.Reference Sample.model))
    by (vm_compute; reflexivity).
  split; [exact Hm|]. split; [|vm_compute; reflexivity].
  exact (proj1 (C7_vad_filter_on_reference (Sample.env "openai_whisper")
                  (Sample.asr_request Sample.upload) (Some true) (Some false)
                  (Sample.started "openai_whisper") 0 Sample.model Hm)).
Defined.

(** C7 as stated fails: on the reference engine, the two requests with an
    empty upload, one with [vad_filter=true] and one with
    [vad_filter=false], do not both succeed; both end with
    [InvalidAudioError]. *)
Lemma C7_counterexample :
  asr_model (Sample.started "openai_whisper")
  = Some (0, Engine.engine Engine.Reference Sample.model)
  ∧ (asr_endpoint (Sample.env "openai_whisper")
       (with_vad_filter (Some true) (Sample.asr_request Sample.empty_upload))
       (Sample.started "openai_whisper")).1 = Raise InvalidAudioError
  ∧ (asr_endpoint (Sample.env "openai_whisper")
       (with_vad_filter (Some false) (Sample.asr_request Sample.empty_upload))
       (Sample.started "openai_whisper")).1 = Raise InvalidAudioError
  ∧ is_ok (asr_endpoint (Sample.env "openai_whisper")
             (with_vad_filter (Some true)
                (Sample.asr_request Sample.empty_upload))
             (Sample.started "openai_whisper")).1 = false.
Proof. repeat split; vm_compute; reflexivity. Qed.

(** On the optimized variant the flag does reach the model. *)
Example vad_filter_on_optimized :
  (asr_endpoint (Sample.env "faster_whisper")
     (with_vad_filter (Some true) (Sample.asr_request Sample.upload))
     (Sample.started "faster_whisper")).1
  ≠ (asr_endpoint (Sample.env "faster_whisper")
       (with_vad_filter (Some false) (Sample.asr_request Sample.upload))
       (Sample.started "faster_whisper")).1.
Proof. vm_compute. intros [= H]. Qed.

(** ** Language detection *)

Lemma LANGUAGE_CODES_spec (env : Environment) (code : string) :
  code ∈ LANGUAGE_CODES env ↔ is_Some (LANGUAGES env !! code).
Proof.
  unfold LANGUAGE_CODES.
  rewrite (merge_sort_Permutation str_le), elem_of_elements.
  apply elem_of_dom.
Qed.

Lemma engine_scores (v : Engine.Variant) (model : Engine.Model) :
  Engine.calibrated model →
  scores_in_unit_interval (Engine.engine v model).
Proof.
  intros Hc w code conf. simpl. unfold Engine.language_detection.
  destruct w as [|x w]; [discriminate|]. simpl. apply Hc.
Qed.

Lemma detected_dom (conf : Q) (code name : string) :
  dom (<["confidence" := JNumber conf]>
         (<["language_code" := JString code]>
            (<["detected_language" := JString name]> (∅ : gmap string JSON))))
  = ({["detected_language"; "language_code"; "confidence"]} : gset string).
Proof. rewrite !dom_insert_L, dom_empty_L. set_solver. Qed.

(** C8.  A [POST /detect-language] request that succeeds is answered by a
    JSON object with exactly the keys [detected_language], [language_code]
    and [confidence]: [language_code] is the code the engine's language
    detection returned, a key of the Whisper language table (a member of
    [LANGUAGE_CODES]); [detected_language] is the name the table gives for
    it; [confidence] is the engine's score, which lies in [[0,1]] for an
    engine that keeps the contract of the design document. *)
Theorem C8_detect_language_response (env : Environment)
    (r : DetectLanguageRequest) (p p' : Process) (resp : Response)
    (m : nat * ASRModel) :
  asr_model p = Some m →
  scores_in_unit_interval m.2 →
  detect_language_endpoint env r p = (Ok resp, p') →
  ∃ audio code conf name body,
    load_audio env (file (d_audio_file r)) (default true (d_encode r))
    = Ok audio
    ∧ (language_detection m.2 audio).1 = Ok (code, conf)
    ∧ LANGUAGES env !! code = Some name
    ∧ code ∈ LANGUAGE_CODES env
    ∧ resp = JSONObject body
    ∧ dom body
      = ({["detected_language"; "language_code"; "confidence"]} : gset string)
    ∧ body !! "detected_language" = Some (JString name)
    ∧ body !! "language_code" = Some (JString code)
    ∧ body !! "confidence" = Some (JNumber conf)
    ∧ (0 <= conf)%Q ∧ (conf <= 1)%Q.
Proof.
  intros Hm Hs. rewrite detect_language_endpoint_run, Hm.
  destruct (load_audio env _ _) as [audio|e] eqn:Ha; [|discriminate].
  destruct (language_detection m.2 audio).1 as [[code conf]|e] eqn:Hd;
    [|discriminate].
  simpl. destruct (LANGUAGES env !! code) as [name|] eqn:Hn; [|discriminate].
  intros [= <- _]. exists audio, code, conf, name. eexists.
  split; [reflexivity|]. split; [exact Hd|]. split; [exact Hn|].
  split; [apply LANGUAGE_CODES_spec; by rewrite Hn|].
  split; [reflexivity|]. split; [apply detected_dom|].
  split; [reflexivity|]. split; [reflexivity|]. split; [reflexivity|].
  exact (Hs audio code conf Hd).
Qed.

Lemma C8_detect_language_response_witness :
  asr_model (Sample.started "openai_whisper")
  = Some (0, Engine.engine Engine.Reference Sample.model)
  ∧ scores_in_unit_interval (Engine.engine Engine.Reference Sample.model)
  ∧ (detect_language_endpoint (Sample.env "openai_whisper")
       (Sample.detect_request Sample.upload)
       (Sample.started "openai_whisper")).1
    = Ok (JSONObject
            (<["confidence" := JNumber (9 # 10)]>
               (<["language_code" := JString "en"]>
                  (<["detected_language" := JString "english"]> ∅))))
  ∧ "en" ∈ LANGUAGE_CODES (Sample.env "openai_whisper").
Proof.
  assert (Hm : asr_model (Sample.started "openai_whisper")
               = Some (0, Engine.engine Engine.Reference Sample.model))
    by (vm_compute; reflexivity).
  assert (Hs : scores_in_unit_interval
                 (Engine.engine Engine.Reference Sample.model)).
  { apply engine_scores. intros w code conf. unfold Sample.model.
    cbn [Engine.detect]. destruct (1000 <? length w)%nat; [discriminate|].
    intros [= <- <-]. split; vm_compute; discriminate. }
  assert (H : detect_language_endpoint (Sample.env "openai_whisper")
                (Sample.detect_request Sample.upload)
                (Sample.started "openai_whisper")
              = (Ok (JSONObject
                       (<["confidence" := JNumber (9 # 10)]>
                          (<["language_code" := JString "en"]>
                             (<["detected_language" := JString "english"]> ∅)))),
                 (detect_language_endpoint (Sample.env "openai_whisper")
                    (Sample.detect_request Sample.upload)
                    (Sample.started "openai_whisper")).2))
    by (vm_compute; reflexivity).
  split; [exact Hm|]. split; [exact Hs|]. split; [by rewrite H|].
  destruct (C8_detect_language_response _ _ _ _ _ _ Hm Hs H)
    as (audio & code & conf & name & body & _ & _ & _ & Hin & Hr & _ & _
        & Hcode & _).
  injection Hr as <-. rewrite lookup_insert_ne, lookup_insert_eq in Hcode by done.
  injection Hcode as <-. exact Hin.
Defined.

(** * More of the dispatch layer *)

(** ** Failures *)

(** X2.  When [load_audio] raises, whatever the exception, a request to any
    of the three endpoints ends with that very exception: no handler
    catches it, the engine is not called and the process is left as it
    was. *)
Theorem load_audio_failure_propagates (env : Environment) (req : Request)
    (f : UploadFile) (p : Process) (m : nat * ASRModel) (e : exn) :
  asr_model p = Some m →
  upload_of req = Some f →
  load_audio env (file f) (encode_of req) = Raise e →
  handle env req p = (Raise e, p).
Proof.
  intros Hm Hf Ha.
  destruct req as [|r|r|r]; simpl in Hf, Ha; [discriminate|..];
    injection Hf as <-; simpl.
  - by rewrite asr_endpoint_run, Hm, Ha.
  - by rewrite transcriptions_endpoint_run, Hm, Ha.
  - by rewrite detect_language_endpoint_run, Hm, Ha.
Qed.

Lemma load_audio_failure_propagates_witness :
  asr_model (Sample.started "faster_whisper")
  = Some (0, Engine.engine Engine.Optimized Sample.model)
  ∧ load_audio (Sample.env "faster_whisper")
      (file Sample2.garbled_upload) true = Raise InvalidAudioError
  ∧ handle (Sample.env "faster_whisper")
      (PostTranscriptions (Sample.transcriptions_request Sample2.garbled_upload))
      (Sample.started "faster_whisper")
    = (Raise InvalidAudioError, Sample.started "faster_whisper").
Proof.
  assert (Hm : asr_model (Sample.started "faster_whisper")
               = Some (0, Engine.engine Engine.Optimized Sample.model))
    by (vm_compute; reflexivity).
  assert (Ha : load_audio (Sample.env "faster_whisper")
                 (file Sample2.garbled_upload) true = Raise InvalidAudioError)
    by (vm_compute; reflexivity).
  split; [exact Hm|]. split; [exact Ha|].
  apply (load_audio_failure_propagates (Sample.env "faster_whisper")
           (PostTranscriptions
              (Sample.transcriptions_request Sample2.garbled_upload))
           Sample2.garbled_upload (Sample.started "faster_whisper") _ _
           Hm eq_refl Ha).
Defined.



(** X4.  [POST /detect-language] looks the detected code up in the Whisper
    language table with a plain subscript: when the engine returns a code
    the table does not have, the request ends with [KeyError] on that code,
    after the engine was called. *)
Theorem detect_language_unknown_code (env : Environment)
    (r : DetectLanguageRequest) (p : Process) (m : nat * ASRModel)
    (audio : Waveform) (code : string) (conf : Q) :
  asr_model p = Some m →
  load_audio env (file (d_audio_file r)) (default true (d_encode r)) = Ok audio →
  (language_detection m.2 audio).1 = Ok (code, conf) →
  LANGUAGES env !! code = None →
  (detect_language_endpoint env r p).1 = Raise (KeyError code)
  ∧ detections (since p (detect_language_endpoint env r p).2) ≠ [].
Proof.
  intros Hm Ha Hd Hn. rewrite detect_language_endpoint_run, Hm, Ha.
  cbn [fst snd]. rewrite Hd, since_extend. simpl. rewrite Hn.
  split; [reflexivity | discriminate].
Qed.

Lemma detect_language_unknown_code_witness :
  LANGUAGES (Sample2.env_with Sample2.stranger_engine) !! "tlh" = None
  ∧ (detect_language_endpoint (Sample2.env_with Sample2.stranger_engine)
       (Sample.detect_request Sample.upload)
       (Sample2.process_with Sample2.stranger_engine)).1
    = Raise (KeyError "tlh").
Proof.
  assert (Hn : LANGUAGES (Sample2.env_with Sample2.stranger_engine) !! "tlh"
               = None) by (vm_compute; reflexivity).
  split; [exact Hn|].
  apply (detect_language_unknown_code
           (Sample2.env_with Sample2.stranger_engine)
           (Sample.detect_request Sample.upload)
           (Sample2.process_with Sample2.stranger_engine)
           (0, Sample2.stranger_engine) [1; 2; 3]%Z "tlh" (1 # 2)
           eq_refl ltac:(vm_compute; reflexivity) eq_refl Hn).
Defined.

(** X5.  When the engine's [language_detection] raises, the
    [POST /detect-language] request ends with the engine's exception. *)
Theorem language_detection_failure_propagates (env : Environment)
    (r : DetectLanguageRequest) (p : Process) (m : nat * ASRModel)
    (audio : Waveform) (e : exn) :
  asr_model p = Some m →
  load_audio env (file (d_audio_file r)) (default true (d_encode r)) = Ok audio →
  (language_detection m.2 audio).1 = Raise e →
  detect_language_endpoint env r p
  = (Raise e,
     extend p (ELanguageDetection m.1 audio
                 :: (EEngine <$> (language_detection m.2 audio).2))).
Proof.
  intros Hm Ha Hd. rewrite detect_language_endpoint_run, Hm, Ha.
  by rewrite Hd.
Qed.

Lemma language_detection_failure_propagates_witness :
  (detect_language_endpoint (Sample2.env_with Sample2.slow_engine)
     (Sample.detect_request Sample.upload)
     (Sample2.process_with Sample2.slow_engine)).1
  = Raise EngineTimeoutError.
Proof.
  rewrite (language_detection_failure_propagates
             (Sample2.env_with Sample2.slow_engine)
             (Sample.detect_request Sample.upload)
             (Sample2.process_with Sample2.slow_engine)
             (0, Sample2.slow_engine) [1; 2; 3]%Z EngineTimeoutError
             eq_refl ltac:(vm_compute; reflexivity) eq_refl).
  reflexivity.
Defined.

(** ** What a request does to the engine *)

Lemma detections_engine (l : list EngineEvent) : detections (EEngine <$> l) = [].
Proof. induction l as [|x l IH]; [done | exact IH]. Qed.

Lemma loads_engine (l : list EngineEvent) : loads (EEngine <$> l) = [].
Proof. induction l as [|x l IH]; [done | exact IH]. Qed.

Lemma loads_app (a b : list Event) : loads (a ++ b) = loads a ++ loads b.
Proof. apply omap_app. Qed.

Lemma since_same (p : Process) : since p p = [].
Proof. unfold since. apply drop_all. Qed.

(** A handler leaves the trace alone or adds one method call followed by
    what the engine did. *)
Lemma added_shape (env : Environment) (req : Request) (p : Process) :
  (handle env req p).2 = extend p (added env req p)
  ∧ match req with
    | GetIndex => added env req p = []
    | PostAsr _ | PostTranscriptions _ =>
        added env req p = []
        ∨ ∃ id a l, added env req p = ETranscribe id a :: (EEngine <$> l)
    | PostDetectLanguage _ =>
        added env req p = []
        ∨ ∃ id w l, added env req p
                    = ELanguageDetection id w :: (EEngine <$> l)
    end.
Proof.
  unfold added.
  assert (Hnil : ∀ x : result Response,
             (x, p).2 = extend p (since p (x, p).2) ∧ since p (x, p).2 = []).
  { intros x. cbn [snd]. by rewrite since_same, extend_nil. }
  destruct req as [|r|r|r]; simpl.
  - apply (Hnil (Ok (Redirect "/docs"))).
  - rewrite asr_endpoint_run.
    destruct (asr_model p) as [m|];
      [|destruct (Hnil (Raise (NameError "asr_model"))); split; [done|by left]].
    destruct (load_audio env _ _) as [audio|e];
      [|destruct (Hnil (Raise e)); split; [done|by left]].
    cbn [snd]. rewrite since_extend. split; [done|]. right. by eexists _, _, _.
  - rewrite transcriptions_endpoint_run.
    destruct (asr_model p) as [m|];
      [|destruct (Hnil (Raise (NameError "asr_model"))); split; [done|by left]].
    destruct (load_audio env _ _) as [audio|e];
      [|destruct (Hnil (Raise e)); split; [done|by left]].
    cbn [snd]. rewrite since_extend. split; [done|]. right. by eexists _, _, _.
  - rewrite detect_language_endpoint_run.
    destruct (asr_model p) as [m|];
      [|destruct (Hnil (Raise (NameError "asr_model"))); split; [done|by left]].
    destruct (load_audio env _ _) as [audio|e];
      [|destruct (Hnil (Raise e)); split; [done|by left]].
    cbn [snd]. rewrite since_extend. split; [done|]. right. by eexists _, _, _.
Qed.

(** X8.  Serving one request makes at most one call on the engine: none for
    [GET /], [transcribe] only for the two transcription endpoints,
    [language_detection] only for [POST /detect-language].  No request
    builds an engine object or loads a model. *)
Theorem one_engine_call_per_request (env : Environment) (req : Request)
    (p : Process) :
  length (transcribe_calls (added env req p))
  + length (detections (added env req p)) ≤ 1
  ∧ created (added env req p) = []
  ∧ loads (added env req p) = []
  ∧ match req with
    | GetIndex => added env req p = []
    | PostAsr _ | PostTranscriptions _ => detections (added env req p) = []
    | PostDetectLanguage _ => transcribe_calls (added env req p) = []
    end.
Proof.
  destruct (added_shape env req p) as [_ H].
  assert (Ht : ∀ id a l,
             added env req p = ETranscribe id a :: (EEngine <$> l) →
             length (transcribe_calls (added env req p))
             + length (detections (added env req p)) ≤ 1
             ∧ created (added env req p) = []
             ∧ loads (added env req p) = []
             ∧ detections (added env req p) = []).
  { intros id a l ->. rewrite transcribe_calls_call.
    change (detections (ETranscribe id a :: (EEngine <$> l)))
      with (detections (EEngine <$> l)).
    change (created (ETranscribe id a :: (EEngine <$> l)))
      with (created (EEngine <$> l)).
    change (loads (ETranscribe id a :: (EEngine <$> l)))
      with (loads (EEngine <$> l)).
    by rewrite detections_engine, created_engine, loads_engine. }
  assert (Hd : ∀ id w l,
             added env req p = ELanguageDetection id w :: (EEngine <$> l) →
             length (transcribe_calls (added env req p))
             + length (detections (added env req p)) ≤ 1
             ∧ created (added env req p) = []
             ∧ loads (added env req p) = []
             ∧ transcribe_calls (added env req p) = []).
  { intros id w l ->.
    change (detections (ELanguageDetection id w :: (EEngine <$> l)))
      with ((id, w) :: detections (EEngine <$> l)).
    change (transcribe_calls (ELanguageDetection id w :: (EEngine <$> l)))
      with (transcribe_calls (EEngine <$> l)).
    change (created (ELanguageDetection id w :: (EEngine <$> l)))
      with (created (EEngine <$> l)).
    change (loads (ELanguageDetection id w :: (EEngine <$> l)))
      with (loads (EEngine <$> l)).
    by rewrite detections_engine, created_engine, loads_engine,
         transcribe_calls_engine. }
  destruct req as [|r|r|r].
  - rewrite H. repeat split; simpl; lia.
  - destruct H as [->|(id & a & l & H)]; [repeat split; simpl; lia|].
    destruct (Ht id a l H) as (? & ? & ? & ?). by repeat split.
  - destruct H as [->|(id & a & l & H)]; [repeat split; simpl; lia|].
    destruct (Ht id a l H) as (? & ? & ? & ?). by repeat split.
  - destruct H as [->|(id & w & l & H)]; [repeat split; simpl; lia|].
    destruct (Hd id w l H) as (? & ? & ? & ?). by repeat split.
Qed.

(** Serving requests loads no model. *)
Lemma serve_loads (env : Environment) (rs : list Request) (p : Process) :
  loads (trace (serve env rs p).2) = loads (trace p).
Proof.
  revert p. induction rs as [|req rs IH]; intros p; [reflexivity|].
  simpl. destruct (added_shape env req p) as [Hp Hs].
  assert (Hl : loads (added env req p) = []).
  { destruct req; repeat destruct Hs as [Hs|Hs];
      try (destruct Hs as (? & ? & ? & ->)); try rewrite Hs;
      try reflexivity; apply loads_engine. }
  destruct (handle env req p) as [x p1]. simpl in Hp. subst p1.
  specialize (IH (extend p (added env req p))).
  destruct (serve env rs (extend p (added env req p))) as [xs p2].
  simpl in *. rewrite IH. unfold extend; simpl.
  by rewrite loads_app, Hl, app_nil_r.
Qed.

(** ** Start-up *)

(** X6.  In a process that started, the engine's model was loaded exactly
    once: right after the engine object was built, on that object, with
    success, and before any request was served.  No request loads it
    again. *)
Theorem model_loaded_once_at_startup (env : Environment) (rs : list Request)
    (out : list (result Response)) (p : Process) :
  run env rs = (Ok out, p) →
  take 2 (trace p) = [ECreate 0; ELoadModel 0]
  ∧ loads (trace p) = [0]
  ∧ ∃ e, asr_model p = Some (0, e) ∧ (load_model e).1 = Ok tt.
Proof.
  unfold run. rewrite import_module_run.
  destruct (create_asr_model env (CONFIG env)) as [e|x]; [|discriminate].
  destruct (load_model e) as [[[]|x] ws] eqn:Hl; simpl; [|discriminate].
  set (p0 := {| asr_model := Some (0, e); objects := 1;
                trace := ECreate 0 :: ELoadModel 0 :: (EEngine <$> ws) |}).
  pose proof (serve_loads env rs p0) as Hloads.
  destruct (serve_extends env rs p0) as (es & Hp & _ & _).
  destruct (serve env rs p0) as [xs p1]; simpl in Hp, Hloads.
  intros [= <- <-]. subst p1. split; [reflexivity|]. split.
  - rewrite Hloads. change (0 :: loads (EEngine <$> ws) = [0]).
    by rewrite loads_engine.
  - exists e. split; [reflexivity|]. by rewrite Hl.
Qed.

Lemma model_loaded_once_at_startup_witness :
  run (Sample.env "whisperx") Sample.requests
  = (Ok (Sample.answers "whisperx"), Sample.served "whisperx")
  ∧ loads (trace (Sample.served "whisperx")) = [0].
Proof.
  assert (H : run (Sample.env "whisperx") Sample.requests
              = (Ok (Sample.answers "whisperx"), Sample.served "whisperx"))
    by (vm_compute; reflexivity).
  split; [exact H|].
  exact (proj1 (proj2 (model_loaded_once_at_startup _ _ _ _ H))).
Defined.

(** X7.  The process fails to start exactly when the factory raises or when
    loading the model raises, and it ends with that exception.  When it
    fails, either nothing happened at all (the factory raised), or the
    engine object was built and bound to [asr_model] (the load raised); in
    neither case is any request handed to the engine. *)
Theorem startup_failure (env : Environment) (rs : list Request) (e : exn) :
  ((run env rs).1 = Raise e
   ↔ create_asr_model env (CONFIG env) = Raise e
     ∨ ∃ m, create_asr_model env (CONFIG env) = Ok m
            ∧ (load_model m).1 = Raise e)
  ∧ ((run env rs).1 = Raise e →
     ((create_asr_model env (CONFIG env) = Raise e
       ∧ (run env rs).2 = initial)
      ∨ (∃ m, create_asr_model env (CONFIG env) = Ok m
              ∧ (load_model m).1 = Raise e
              ∧ asr_model (run env rs).2 = Some (0, m)
              ∧ trace (run env rs).2
                = ECreate 0 :: ELoadModel 0
                    :: (EEngine <$> (load_model m).2)))
     ∧ transcribe_calls (trace (run env rs).2) = []
     ∧ detections (trace (run env rs).2) = []).
Proof.
  unfold run. rewrite import_module_run.
  destruct (create_asr_model env (CONFIG env)) as [m|x].
  - destruct (load_model m) as [[[]|x] ws] eqn:Hl; cbn [fst snd].
    + destruct (serve env rs _) as [xs p']. cbn [fst snd]. split.
      * split; [discriminate|].
        intros [H|(m' & [= <-] & H)]; [discriminate H|].
        rewrite Hl in H. discriminate H.
      * discriminate.
    + split.
      * split.
        -- intros [= <-]. right. exists m. by rewrite Hl.
        -- intros [H|(m' & [= <-] & H)]; [discriminate H|].
           rewrite Hl in H. simpl in H. by injection H as ->.
      * intros [= <-]. split.
        -- right. exists m. rewrite Hl. by repeat split.
        -- change (transcribe_calls (EEngine <$> ws) = []
                   ∧ detections (EEngine <$> ws) = []).
           by rewrite transcribe_calls_engine, detections_engine.
  - cbn [fst snd]. split.
    + split.
      * intros [= <-]. by left.
      * intros [H|(m' & H & _)]; [by injection H as -> | discriminate H].
    + intros [= <-]. split; [by left | done].
Qed.

(** The factory does not know the engine: nothing is served. *)
Lemma startup_failure_witness :
  (run (Sample.env "nope") Sample.requests).1 = Raise EngineConstructionError
  ∧ create_asr_model (Sample.env "nope") (CONFIG (Sample.env "nope"))
    = Raise EngineConstructionError
  ∧ (run (Sample.env "nope") Sample.requests).2 = initial.
Proof.
  assert (H : (run (Sample.env "nope") Sample.requests).1
              = Raise EngineConstructionError)
    by (vm_compute; reflexivity).
  split; [exact H|].
  destruct (proj2 (startup_failure (Sample.env "nope") Sample.requests
                     EngineConstructionError) H)
    as [[[Hc Hp]|(m & Hc & _)] _].
  - split; [exact Hc | exact Hp].
  - vm_compute in Hc. discriminate Hc.
Defined.

(** The other way to fail: the weights do not load. *)
Example startup_failure_on_load :
  (run (Sample2.env_with Sample2.broken_engine) Sample.requests).1
  = Raise EngineConstructionError
  ∧ asr_model (run (Sample2.env_with Sample2.broken_engine) Sample.requests).2
    = Some (0, Sample2.broken_engine).
Proof. split; reflexivity. Qed.

(** ** The answer of [transcriptions] *)



(** ** The quoted file name *)

Lemma unquote_quote_byte (c : ascii) (s : string) :
  unquote (Urllib.quote_byte c +:+ s) = String c (unquote s).
Proof. destruct c as [[] [] [] [] [] [] [] []]; reflexivity. Qed.

Lemma unquote_quote_inverse (u : string) : unquote (Urllib.quote u) = u.
Proof.
  induction u as [|c u IH]; [reflexivity|].
  change (unquote (Urllib.quote_byte c +:+ Urllib.quote u) = String c u).
  by rewrite unquote_quote_byte, IH.
Qed.

Lemma quote_injective (s t : string) : Urllib.quote s = Urllib.quote t → s = t.
Proof.
  intros H. rewrite <- (unquote_quote_inverse s), <- (unquote_quote_inverse t).
  by rewrite H.
Qed.

(** X9.  Quoting loses nothing: unquoting the quoted name gives the name
    back, so two different upload names are never quoted alike. *)
Theorem unquote_quote (s : string) :
  unquote (Urllib.quote s) = s
  ∧ ∀ t, Urllib.quote s = Urllib.quote t → s = t.
Proof. split; [apply unquote_quote_inverse | apply quote_injective]. Qed.

Lemma length_append (s t : string) :
  String.length (s +:+ t) = String.length s + String.length t.
Proof.
  induction s as [|c s IH]; [reflexivity|].
  change (S (String.length (s +:+ t)) = S (String.length s + String.length t)).
  by rewrite IH.
Qed.

Lemma append_inj_l (q s t : string) : q +:+ s = q +:+ t → s = t.
Proof.
  induction q as [|c q IH]; [done|].
  change (String c (q +:+ s) = String c (q +:+ t) → s = t).
  intros [= H]. auto.
Qed.

Lemma append_inj_r (s1 s2 t : string) : s1 +:+ t = s2 +:+ t → s1 = s2.
Proof.
  revert s2. induction s1 as [|c s1 IH]; intros [|c' s2] H.
  - reflexivity.
  - apply (f_equal String.length) in H.
    change (String.length (EmptyString +:+ t)) with (String.length t) in H.
    rewrite (length_append (String c' s2) t) in H. simpl in H. lia.
  - apply (f_equal String.length) in H.
    change (String.length (EmptyString +:+ t)) with (String.length t) in H.
    rewrite (length_append (String c s1) t) in H. simpl in H. lia.
  - change (String c (s1 +:+ t) = String c' (s2 +:+ t)) in H.
    injection H as -> H. by rewrite (IH s2 H).
Qed.

(** X10.  For a given format, two uploads with different names get
    different [Content-Disposition] headers, on either transcription
    endpoint. *)
Theorem content_disposition_tells_names_apart (env : Environment)
    (n1 n2 : string) (format : option string) :
  n1 ≠ n2 →
  response_headers env n1 format !! "Content-Disposition"
  ≠ response_headers env n2 format !! "Content-Disposition".
Proof.
  intros Hne H. apply Hne.
  unfold response_headers in H. rewrite !lookup_insert_eq in H.
  injection H as H. unfold content_disposition in H.
  apply append_inj_l, append_inj_r in H.
  by apply quote_injective.
Qed.

Lemma content_disposition_tells_names_apart_witness :
  "a b.wav" ≠ "a%20b.wav"
  ∧ response_headers (Sample.env "whisperx") "a b.wav" None
      !! "Content-Disposition"
    ≠ response_headers (Sample.env "whisperx") "a%20b.wav" None
        !! "Content-Disposition".
Proof.
  assert (Hne : "a b.wav" ≠ "a%20b.wav") by discriminate.
  split; [exact Hne|].
  apply (content_disposition_tells_names_apart (Sample.env "whisperx")
           "a b.wav" "a%20b.wav" None Hne).
Defined.

Lemma quote_byte_length (c : ascii) :
  String.length (Urllib.quote_byte c)
  = 1 + 2 * (if Urllib.always_safe c || Urllib.default_safe c then 0 else 1).
Proof.
  unfold Urllib.quote_byte.
  by destruct (Urllib.always_safe c || Urllib.default_safe c).
Qed.

(** X11.  Quoting turns each byte outside letters, digits, [_ . - ~] and [/]
    into three characters and keeps the others: the quoted name is longer
    by twice the number of such bytes, and a name is quoted to itself
    exactly when it has none. *)
Theorem quote_length (s : string) :
  String.length (Urllib.quote s) = String.length s + 2 * escaped s
  ∧ (Urllib.quote s = s ↔ escaped s = 0).
Proof.
  assert (Hlen : ∀ u, String.length (Urllib.quote u)
                      = String.length u + 2 * escaped u).
  { induction u as [|c u IH]; [reflexivity|].
    change (String.length (Urllib.quote_byte c +:+ Urllib.quote u)
            = S (String.length u)
              + 2 * ((if Urllib.always_safe c || Urllib.default_safe c
                      then 0 else 1) + escaped u)).
    rewrite length_append, quote_byte_length, IH. lia. }
  split; [apply Hlen|]. split.
  - intros H. pose proof (Hlen s) as Hl. rewrite H in Hl. lia.
  - induction s as [|c s IH]; [reflexivity|].
    change (((if Urllib.always_safe c || Urllib.default_safe c then 0 else 1)
             + escaped s = 0)
            → Urllib.quote_byte c +:+ Urllib.quote s = String c s).
    unfold Urllib.quote_byte.
    destruct (Urllib.always_safe c || Urllib.default_safe c); [|lia].
    intros H. rewrite IH by lia. reflexivity.
Qed.

(** ** The language codes and the documentation *)

#[local] Instance str_le_total : Total str_le.
Proof. intros a b. apply String.leb_total. Qed.

(** X12.  [LANGUAGE_CODES], the [enum] of the [language] parameter on both
    endpoints, lists the keys of the Whisper language table, each once, in
    ascending order. *)
Theorem LANGUAGE_CODES_sorted (env : Environment) :
  Sorted str_le (LANGUAGE_CODES env)
  ∧ NoDup (LANGUAGE_CODES env)
  ∧ length (LANGUAGE_CODES env) = size (LANGUAGES env)
  ∧ (∀ code, code ∈ LANGUAGE_CODES env ↔ is_Some (LANGUAGES env !! code))
  ∧ p_enum (language_param env InQuery) = Some (LANGUAGE_CODES env)
  ∧ p_enum (language_param env InForm) = Some (LANGUAGE_CODES env).
Proof.
  split; [apply (Sorted_merge_sort str_le)|].
  split.
  { unfold LANGUAGE_CODES. rewrite (merge_sort_Permutation str_le).
    apply NoDup_elements. }
  split.
  { unfold LANGUAGE_CODES. rewrite (merge_sort_Permutation str_le).
    rewrite <- size_dom. reflexivity. }
  split; [apply LANGUAGE_CODES_spec|]. split; reflexivity.
Qed.

(** X13.  What the generated documentation lists, in order.  For [POST /asr]:
    the upload, [encode], [task], [language], [initial_prompt], then the
    optional parameters the configuration exposes, then [output].  The
    optional ones are [vad_filter], [word_timestamps] under
    [faster_whisper]; [diarize] (with a token), [min_speakers],
    [max_speakers] under [whisperx]; none under any other engine.  For
    [POST /audio/transcriptions], whose parameters are form fields: all
    eleven, under every configuration.  For [POST /detect-language]: the
    upload and [encode]. *)
Theorem documented_parameters (env : Environment) :
  documented (asr_params env)
  = asr_core ++ optional_documented (CONFIG env) ++ ["output"]
  ∧ documented (transcriptions_params env)
    = transcriptions_core
        ++ [ "vad_filter"; "word_timestamps"; "diarize"; "min_speakers";
             "max_speakers" ]
        ++ ["model"; "response_format"]
  ∧ documented detect_language_params = ["audio_file"; "encode"].
Proof.
  split; [|split; reflexivity].
  unfold asr_params, optional_documented.
  rewrite !documented_cons. cbn. unfold engine_is.
  destruct (bool_decide (ASR_ENGINE (CONFIG env) = "faster_whisper"));
    destruct (bool_decide (ASR_ENGINE (CONFIG env) = "whisperx"));
    destruct (bool_decide (HF_TOKEN (CONFIG env) = EmptyString));
    reflexivity.
Qed.

(** ** The response constructor *)

Lemma latin1_app (s t : string) : latin1 (s +:+ t) = latin1 s && latin1 t.
Proof. apply all_chars_app. Qed.

(** The headers cannot be encoded when the format cannot. *)
Lemma unencodable_format (env : Environment) (name : string)
    (format : option string) :
  latin1 (py_str format) = false →
  encodable (response_headers env name format) = false.
Proof.
  intros Hf. apply bool_decide_eq_false. intros Hall.
  assert (H : latin1 (content_disposition name format) = true).
  { apply (Hall "Content-Disposition"). unfold response_headers.
    apply lookup_insert_eq. }
  unfold content_disposition in H. rewrite !latin1_app in H.
  do 4 (apply andb_true_iff in H as [_ H]).
  apply andb_true_iff in H as [H _]. congruence.
Qed.

(** X15.  [StreamingResponse] encodes its header values as latin-1 when it is
    built.  A [POST /asr] request that names a format with a character
    outside latin-1 therefore ends with [UnicodeEncodeError], after the
    engine was called and returned. *)
Theorem wide_format_fails_after_transcription (env : Environment)
    (r : AsrRequest) (p : Process) (m : nat * ASRModel) (audio : Waveform)
    (body : Stream) :
  asr_model p = Some m →
  load_audio env (file (a_audio_file r)) (default true (a_encode r)) = Ok audio →
  (transcribe m.2 (asr_call r audio)).1 = Ok body →
  latin1 (default "txt" (a_output r)) = false →
  (asr_endpoint env r p).1 = Raise UnicodeEncodeError
  ∧ transcribe_calls (since p (asr_endpoint env r p).2)
    = [(m.1, asr_call r audio)].
Proof.
  intros Hm Ha Hb Hf. split.
  - rewrite asr_endpoint_run, Hm, Ha. cbn [fst snd]. rewrite Hb.
    unfold streamed. by rewrite unencodable_format.
  - by rewrite asr_endpoint_calls, Hm, Ha.
Qed.

Lemma wide_format_fails_after_transcription_witness :
  latin1 Sample2.wide_format = false
  ∧ (asr_endpoint (Sample.env "faster_whisper") Sample2.wide_format_request
       (Sample.started "faster_whisper")).1 = Raise UnicodeEncodeError.
Proof.
  split; [reflexivity|].
  exact (proj1 (wide_format_fails_after_transcription
                  (Sample.env "faster_whisper") Sample2.wide_format_request
                  (Sample.started "faster_whisper")
                  (0, Engine.engine Engine.Optimized Sample.model)
                  [1; 2; 3]%Z _
                  ltac:(vm_compute; reflexivity)
                  ltac:(vm_compute; reflexivity)
                  ltac:(vm_compute; reflexivity)
                  eq_refl)).
Defined.
